(** * gdpc.geometry: placement of geometrical shapes of blocks

    A shallow embedding of [src/gdpc/geometry.py].  The module is a thin
    layer over three collaborators that live in other modules of the
    package: the vector tools ([Box], [Rect], [line3D], [lineSequence3D],
    [cylinder], [fittingCylinder]), the [Block] value and the [Editor].

    - Vectors are records of three integers.  The vector library keeps
      32-bit components and wraps around; sums and differences of vectors
      are embedded exactly, [ivec3_wrap] is what the library keeps of them,
      and a theorem that depends on the value of one is stated where it is
      in the 32-bit range ([ivec3_int32], [Box_int32]), so that the two
      agree.
    - A Python generator is modelled by its finite run: the points it
      yields and the exception that ends it, if any.
    - The editor is modelled by what the layer can observe of it: its
      current transform and the journal of placement calls it received.
      A placement call may raise; the editor keeps its state when it does,
      as a Python object does.
    - The transform and the block are total in the first part, which is
      the layer when they do not raise; the part on exceptions embeds the
      functions that use them again, with [transform * vec] and
      [block.transformed] raising.
    - Every function of the layer returns [None] in Python, so a function
      maps an editor to an [Outcome]: the editor after the call and the
      exception that escaped, if any. *)

From Stdlib Require Import ZArith List Bool String Lia FinFun.
Import ListNotations.
Open Scope Z_scope.

(* ------------------------------------------------------------------ *)
(** ** Integer vectors *)

Record ivec2 := mk_ivec2 { ux : Z; uy : Z }.

Record ivec3 := mk_ivec3 { vx : Z; vy : Z; vz : Z }.

(** [ivec3(0, 0, 0)], the default [offset] of a [Box]. *)
Definition ivec3_zero : ivec3 := mk_ivec3 0 0 0.

(** The values of a component of a vector: a 32-bit signed integer. *)
Definition int32 (z : Z) : Prop := - 2147483648 <= z <= 2147483647.

Definition ivec3_int32 (v : ivec3) : Prop :=
  int32 (vx v) /\ int32 (vy v) /\ int32 (vz v).

(** The 32-bit signed integer the vector library keeps of an exact
    result. *)
Definition wrap (z : Z) : Z :=
  (z + 2147483648) mod 4294967296 - 2147483648.

Definition ivec3_wrap (v : ivec3) : ivec3 :=
  mk_ivec3 (wrap (vx v)) (wrap (vy v)) (wrap (vz v)).

(** Modelled from the spec: [a + b] on vectors, as the exact sum.  The
    vector library keeps [ivec3_wrap] of it, which is the sum itself
    where the sum is in the 32-bit range. *)
Definition ivec3_add (a b : ivec3) : ivec3 :=
  mk_ivec3 (vx a + vx b) (vy a + vy b) (vz a + vz b).

(** Modelled from the spec: [a - k] for a vector [a] and an integer [k]
    (as in [box.end - 1]), as the exact difference.  The vector library
    keeps [ivec3_wrap] of it. *)
Definition ivec3_sub_int (a : ivec3) (k : Z) : ivec3 :=
  mk_ivec3 (vx a - k) (vy a - k) (vz a - k).

(** [sum(pos)]: iterating a vector gives its three components. *)
Definition ivec3_sum (a : ivec3) : Z := vx a + vy a + vz a.

(** Python's [range(lo, hi)]. *)
Definition range (lo hi : Z) : list Z :=
  map (fun i => lo + Z.of_nat i) (seq 0 (Z.to_nat (hi - lo))).

(* ------------------------------------------------------------------ *)
(** ** Generators, replace filters, diameters *)

(** The run of a generator of points. *)
Record PointGen (Err : Type) := mk_PointGen {
  yields : list ivec3;
  raises : option Err
}.
Arguments mk_PointGen {Err} _ _.
Arguments yields {Err} _.
Arguments raises {Err} _.

(** A generator that ends normally after yielding [ps]. *)
Definition PointGen_of {Err} (ps : list ivec3) : PointGen Err :=
  mk_PointGen ps None.

(** [yield from g1] followed by [yield from g2]: an exception in [g1]
    ends the run. *)
Definition PointGen_then {Err} (g1 g2 : PointGen Err) : PointGen Err :=
  match raises g1 with
  | Some e => g1
  | None => mk_PointGen (yields g1 ++ yields g2) (raises g2)
  end.

(** [Optional[Union[str, List[str]]]]. *)
Inductive ReplaceSpec :=
| ReplaceId (id : string)
| ReplaceIds (ids : list string).

Definition Replace := option ReplaceSpec.

(** [Union[ivec2, int]]. *)
Inductive Diameters :=
| DiameterInt (d : Z)
| DiameterVec (d : ivec2).

(* ------------------------------------------------------------------ *)
(** ** Box and Rect *)

(** Modelled from the spec: the [Box] class of [vector_tools], an
    axis-aligned integer region given by an offset and a size. *)
Record Box := mk_Box { offset : ivec3; size : ivec3 }.

(** Modelled from the spec: [Box(size=s)], the offset defaults to the
    origin. *)
Definition Box_of_size (s : ivec3) : Box := mk_Box ivec3_zero s.

(** Modelled from the spec: [Box.begin], the offset. *)
Definition Box_begin (b : Box) : ivec3 := offset b.

(** Modelled from the spec: [Box.end], [end = offset + size]. *)
Definition Box_end (b : Box) : ivec3 := ivec3_add (offset b) (size b).

(** A box whose offset, size and end are in the 32-bit range: the vector
    library computes its end without wrapping. *)
Definition Box_int32 (b : Box) : Prop :=
  ivec3_int32 (offset b) /\ ivec3_int32 (size b) /\ ivec3_int32 (Box_end b).

(** Modelled from the spec: [Box.between], the normalizing constructor of
    the closed box spanned by two corners given in any order. *)
Definition Box_between (a b : ivec3) : Box :=
  mk_Box
    (mk_ivec3 (Z.min (vx a) (vx b)) (Z.min (vy a) (vy b)) (Z.min (vz a) (vz b)))
    (mk_ivec3 (Z.abs (vx b - vx a) + 1) (Z.abs (vy b - vy a) + 1)
              (Z.abs (vz b - vz a) + 1)).

(** Modelled from the spec: the points of a [Box], those with
    [begin <= p < end] on every axis. *)
Definition Box_points (b : Box) : list ivec3 :=
  flat_map (fun x =>
    flat_map (fun y =>
      map (fun z => mk_ivec3 x y z)
          (range (vz (Box_begin b)) (vz (Box_end b))))
      (range (vy (Box_begin b)) (vy (Box_end b))))
    (range (vx (Box_begin b)) (vx (Box_end b))).

(** Modelled from the spec: [Box.inner], all the points of the box. *)
Definition Box_inner {Err} (b : Box) : PointGen Err :=
  PointGen_of (Box_points b).

(** Modelled from the spec: the number of axes on which [p] lies on a
    face of [b]; at least one on the shell, at least two on an edge. *)
Definition Box_faces (b : Box) (p : ivec3) : nat :=
  let on lo hi v := if (v =? lo) || (v =? hi - 1) then 1%nat else 0%nat in
  (on (vx (Box_begin b)) (vx (Box_end b)) (vx p)
   + on (vy (Box_begin b)) (vy (Box_end b)) (vy p)
   + on (vz (Box_begin b)) (vz (Box_end b)) (vz p))%nat.

(** Modelled from the spec: [Box.shell], the boundary of the box. *)
Definition Box_shell {Err} (b : Box) : PointGen Err :=
  PointGen_of (filter (fun p => Nat.leb 1 (Box_faces b p)) (Box_points b)).

(** Modelled from the spec: [Box.wireframe], the twelve edges of the box. *)
Definition Box_wireframe {Err} (b : Box) : PointGen Err :=
  PointGen_of (filter (fun p => Nat.leb 2 (Box_faces b p)) (Box_points b)).

(** Modelled from the spec: the [Rect] class of [vector_tools], the 2D
    analog of [Box]. *)
Record Rect := mk_Rect { rect_offset : ivec2; rect_size : ivec2 }.

(** Modelled from the spec: [Rect.toBox(offsetY, sizeY)], the box over the
    rectangle at a given height and thickness. *)
Definition Rect_toBox (r : Rect) (offsetY sizeY : Z) : Box :=
  mk_Box (mk_ivec3 (ux (rect_offset r)) offsetY (uy (rect_offset r)))
         (mk_ivec3 (ux (rect_size r)) sizeY (uy (rect_size r))).

(* ------------------------------------------------------------------ *)
(** ** Fitting cylinders *)

(** The two coordinates of [v] across [axis] and the one along it. *)
Definition cross (axis : Z) (v : ivec3) : Z * Z * Z :=
  if axis =? 0 then (vy v, vz v, vx v)
  else if axis =? 1 then (vx v, vz v, vy v)
  else (vx v, vy v, vz v).

(** Modelled from the spec: whether the cell [(i, k)] of a rectangle of
    [w] by [d] cells belongs to the ellipse inscribed in the rectangle, the
    cross section of a cylinder that fills it: the centre of the cell lies
    on one of the two axes of the ellipse, which span the rectangle, or
    within the ellipse. *)
Definition ellipse_meets (w d i k : Z) : bool :=
  let a := 2 * i + 1 - w in
  let b := 2 * k + 1 - d in
  (Z.abs a <=? 1) || (Z.abs b <=? 1)
  || (a * a * d * d + b * b * w * w <=? w * w * d * d).

(** Modelled from the spec: the cells of the cross section, those of the
    rectangle that belong to the ellipse. *)
Definition disc (w d i k : Z) : bool :=
  (0 <=? i) && (i <? w) && (0 <=? k) && (k <? d) && ellipse_meets w d i k.

(** Modelled from the spec: the outline of the cross section, its cells
    with a neighbour outside it. *)
Definition rim (w d i k : Z) : bool :=
  disc w d i k
  && negb (disc w d (i - 1) k && disc w d (i + 1) k
           && disc w d i (k - 1) && disc w d i (k + 1)).

(** Modelled from the spec: whether [p] belongs to the cylinder that fills
    [box] along [axis]: solid, the cross section at every height; [tube],
    its outline at every height (ends open); [hollow], the outline and
    the two end faces. *)
Definition cylinder_cell (axis : Z) (tube hollow : bool) (box : Box)
    (p : ivec3) : bool :=
  let '(w, d, len) := cross axis (size box) in
  let '(i, k, h) :=
    cross axis (mk_ivec3 (vx p - vx (offset box)) (vy p - vy (offset box))
                         (vz p - vz (offset box))) in
  if tube then rim w d i k
  else if hollow
       then rim w d i k || (disc w d i k && ((h =? 0) || (h =? len - 1)))
       else disc w d i k.

(** Modelled from the spec: the points of [fittingCylinder(corner1,
    corner2, axis, tube, hollow)] of [vector_tools] on an axis 0, 1 or 2,
    the cylinder that fills the box between the two corners. *)
Definition fittingCylinder_points (corner1 corner2 : ivec3) (axis : Z)
    (tube hollow : bool) : list ivec3 :=
  filter (cylinder_cell axis tube hollow (Box_between corner1 corner2))
         (Box_points (Box_between corner1 corner2)).

(* ------------------------------------------------------------------ *)
(** ** The editor as the layer observes it *)

(** The first argument of a placement call: one position or an iterable
    of positions. *)
Inductive Position (Err : Type) :=
| At (p : ivec3)
| Each (g : PointGen Err).
Arguments At {Err} _.
Arguments Each {Err} _.

(** A placement call received by the editor. *)
Inductive Call (Err Block : Type) :=
| PlaceBlockGlobal (position : Position Err) (block : Block) (replace : Replace)
| PlaceBlock (position : Position Err) (block : Block) (replace : Replace).
Arguments PlaceBlockGlobal {Err Block} _ _ _.
Arguments PlaceBlock {Err Block} _ _ _.

(** Modelled from the spec: the [Editor] of [interface], reduced to its
    current transform and the calls it has received, oldest first. *)
Record Editor (Err Block Transform : Type) := mk_Editor {
  transform : Transform;
  journal : list (Call Err Block)
}.
Arguments mk_Editor {Err Block Transform} _ _.
Arguments transform {Err Block Transform} _.
Arguments journal {Err Block Transform} _.

(** Modelled from the spec: the types and operations of the collaborators
    that the layer uses and the specification leaves open, as
    parameters.  [Transform_mul] and [Block_transformed] give the result
    of the operation when it does not raise; whether it raises is in
    [Raising]. *)
Class Collaborators := {
  (** exceptions *)
  Err : Type;
  (** [Block], with [Block("")] and [Block.transformed(rotation, flip)] *)
  Block : Type;
  Block_empty : Block;
  Rotation : Type;
  Flip : Type;
  Block_transformed : Block -> Rotation -> Flip -> Block;
  (** [Transform], with [.rotation], [.flip] and the result of
      [transform * vec] *)
  Transform : Type;
  Transform_mul : Transform -> ivec3 -> ivec3;
  Transform_rotation : Transform -> Rotation;
  Transform_flip : Transform -> Flip;
  (** the point generators of [vector_tools] *)
  line3D : ivec3 -> ivec3 -> Z -> PointGen Err;
  cylinder : ivec3 -> Diameters -> Z -> Z -> bool -> bool -> PointGen Err;
  (** [fittingCylinder] on an axis other than 0, 1 and 2 *)
  fittingCylinder_other : ivec3 -> ivec3 -> Z -> bool -> bool -> PointGen Err;
  (** [vec[i]] for an index other than 0, 1 and 2 *)
  ivec3_getitem_other : ivec3 -> Z -> Err + Z;
  (** the exception a placement call raises, if any *)
  Editor_raises : Editor Err Block Transform -> Call Err Block -> option Err
}.

Section Layer.

Context `{Collaborators}.

Definition Editor' := Editor Err Block Transform.
Definition Call' := Call Err Block.

(** The editor after a call of the layer and the exception that escaped. *)
Definition Outcome : Type := Editor' * option Err.

(** [vec[i]]. *)
Definition ivec3_getitem (v : ivec3) (i : Z) : Err + Z :=
  if i =? 0 then inr (vx v)
  else if i =? 1 then inr (vy v)
  else if i =? 2 then inr (vz v)
  else ivec3_getitem_other v i.

(** The editor receives call [c]. *)
Definition Editor_receive (editor : Editor') (c : Call') : Outcome :=
  (mk_Editor (transform editor) (journal editor ++ [c]),
   Editor_raises editor c).

(** Modelled from the spec: [Editor.placeBlockGlobal], placement at
    positions that are already global. *)
Definition Editor_placeBlockGlobal (editor : Editor') (position : Position Err)
    (block : Block) (replace : Replace) : Outcome :=
  Editor_receive editor (PlaceBlockGlobal position block replace).

(** Modelled from the spec: [Editor.placeBlock], placement that applies the
    editor's transform itself. *)
Definition Editor_placeBlock (editor : Editor') (position : Position Err)
    (block : Block) (replace : Replace) : Outcome :=
  Editor_receive editor (PlaceBlock position block replace).

(** A [for] loop over a list: the body runs for each element in turn until
    one raises. *)
Fixpoint for_list {A} (xs : list A) (body : Editor' -> A -> Outcome)
    (editor : Editor') : Outcome :=
  match xs with
  | [] => (editor, None)
  | a :: xs' =>
      match body editor a with
      | (editor', None) => for_list xs' body editor'
      | (editor', Some e) => (editor', Some e)
      end
  end.

(** A [for] loop over a generator: an exception of the generator escapes
    once the yielded points are consumed. *)
Definition for_gen (g : PointGen Err) (body : Editor' -> ivec3 -> Outcome)
    (editor : Editor') : Outcome :=
  match for_list (yields g) body editor with
  | (editor', None) => (editor', raises g)
  | out => out
  end.

(** Modelled from the spec: the pairs of neighbours of a sequence, the
    ends of the lines of [lineSequence3D]. *)
Fixpoint neighbours (points : list ivec3) : list (ivec3 * ivec3) :=
  match points with
  | [] => []
  | a :: rest =>
      match rest with
      | [] => []
      | b :: _ => (a, b) :: neighbours rest
      end
  end.

(** Modelled from the spec: the ends of the line that closes a sequence,
    from its last point back to its first. *)
Definition closing (points : list ivec3) : list (ivec3 * ivec3) :=
  match points with
  | [] => []
  | p0 :: _ => [(last points p0, p0)]
  end.

(** Modelled from the spec: [lineSequence3D(points, closed)] of
    [vector_tools]: the lines from each point to the next, and, if
    [closed], a last line from the last point back to the first. *)
Definition lineSequence3D (points : list ivec3) (closed : bool)
    : PointGen Err :=
  fold_right (fun s g => PointGen_then (line3D (fst s) (snd s) 1) g)
             (PointGen_of [])
             (neighbours points ++ (if closed then closing points else [])).

(** Modelled from the spec: [fittingCylinder(corner1, corner2, axis, tube,
    hollow)] of [vector_tools], the generator of the cylinder that fills
    the box between the two corners. *)
Definition fittingCylinder (corner1 corner2 : ivec3) (axis : Z)
    (tube hollow : bool) : PointGen Err :=
  if (0 <=? axis) && (axis <=? 2)
  then PointGen_of (fittingCylinder_points corner1 corner2 axis tube hollow)
  else fittingCylinder_other corner1 corner2 axis tube hollow.

(* ------------------------------------------------------------------ *)
(** ** The functions of [geometry.py]

    Arguments that have a default in Python are explicit here; the
    defaults are [block2 = Block_empty], [width = 1], [closed = false],
    [axis = 1], [tube = false], [hollow = false] and [replace = None]. *)

(** Places a box of [block] blocks from [first] to [last] (inclusive). *)
Definition placeCuboid (editor : Editor') (first last : ivec3) (block : Block)
    (replace : Replace) : Outcome :=
  let first := Transform_mul (transform editor) first in
  let last := Transform_mul (transform editor) last in
  let block := Block_transformed block (Transform_rotation (transform editor))
                                 (Transform_flip (transform editor)) in
  Editor_placeBlockGlobal editor (Each (Box_inner (Box_between first last)))
                          block replace.

(** Places a hollow box of [block] blocks from [first] to [last]
    (inclusive). *)
Definition placeCuboidHollow (editor : Editor') (first last : ivec3)
    (block : Block) (replace : Replace) : Outcome :=
  let first := Transform_mul (transform editor) first in
  let last := Transform_mul (transform editor) last in
  let block := Block_transformed block (Transform_rotation (transform editor))
                                 (Transform_flip (transform editor)) in
  Editor_placeBlockGlobal editor (Each (Box_shell (Box_between first last)))
                          block replace.

(** Places a wireframe of [block] blocks from [first] to [last]
    (inclusive). *)
Definition placeCuboidWireframe (editor : Editor') (first last : ivec3)
    (block : Block) (replace : Replace) : Outcome :=
  let first := Transform_mul (transform editor) first in
  let last := Transform_mul (transform editor) last in
  let block := Block_transformed block (Transform_rotation (transform editor))
                                 (Transform_flip (transform editor)) in
  Editor_placeBlockGlobal editor (Each (Box_wireframe (Box_between first last)))
                          block replace.

(** The guard of the box functions:
    [box.size.x == 0 or box.size.y == 0 or box.size.z == 0]. *)
Definition size_has_zero (box : Box) : bool :=
  (vx (size box) =? 0) || (vy (size box) =? 0) || (vz (size box) =? 0).

(** Places a box of [block] blocks. *)
Definition placeBox (editor : Editor') (box : Box) (block : Block)
    (replace : Replace) : Outcome :=
  if size_has_zero box then (editor, None)
  else placeCuboid editor (Box_begin box) (ivec3_sub_int (Box_end box) 1)
                   block replace.

(** Places a hollow box of [block] blocks. *)
Definition placeBoxHollow (editor : Editor') (box : Box) (block : Block)
    (replace : Replace) : Outcome :=
  if size_has_zero box then (editor, None)
  else placeCuboidHollow editor (Box_begin box) (ivec3_sub_int (Box_end box) 1)
                         block replace.

(** Places a wireframe of [block] blocks. *)
Definition placeBoxWireframe (editor : Editor') (box : Box) (block : Block)
    (replace : Replace) : Outcome :=
  if size_has_zero box then (editor, None)
  else placeCuboidWireframe editor (Box_begin box)
                            (ivec3_sub_int (Box_end box) 1) block replace.

(** Places a rectangle of blocks at height [y]. *)
Definition placeRect (editor : Editor') (rect : Rect) (y : Z) (block : Block)
    (replace : Replace) : Outcome :=
  placeBox editor (Rect_toBox rect y 1) block replace.

(** Places the outline of a rectangle of blocks at height [y]. *)
Definition placeRectOutline (editor : Editor') (rect : Rect) (y : Z)
    (block : Block) (replace : Replace) : Outcome :=
  placeBoxWireframe editor (Rect_toBox rect y 1) block replace.

(** [block1 if sum(pos) % 2 == 0 else block2]. *)
Definition checkeredBlock (pos : ivec3) (block1 block2 : Block) : Block :=
  if ivec3_sum pos mod 2 =? 0 then block1 else block2.

(** Places a checker pattern of [block1] and [block2] in [box].  The loop
    runs through [box]-local positions. *)
Definition placeCheckeredBox (editor : Editor') (box : Box)
    (block1 block2 : Block) (replace : Replace) : Outcome :=
  for_gen (Box_inner (Box_of_size (size box)))
    (fun editor pos =>
       Editor_placeBlock editor (At (ivec3_add (offset box) pos))
                         (checkeredBlock pos block1 block2) replace)
    editor.

(** Places a checker pattern in the box between [first] and [last]
    (inclusive). *)
Definition placeCheckeredCuboid (editor : Editor') (first last : ivec3)
    (block1 block2 : Block) (replace : Replace) : Outcome :=
  placeCheckeredBox editor (Box_between first last) block1 block2 replace.

(** [block1 if pos[stripeAxis] % 2 == 0 else block2]; the indexing may
    raise. *)
Definition stripedBlock (pos : ivec3) (stripeAxis : Z) (block1 block2 : Block)
    : Err + Block :=
  match ivec3_getitem pos stripeAxis with
  | inl e => inl e
  | inr c => inr (if c mod 2 =? 0 then block1 else block2)
  end.

(** Places a stripe pattern of [block1] and [block2] along [stripeAxis]
    (0, 1 or 2) in [box].  The loop runs through [box]-local positions. *)
Definition placeStripedBox (editor : Editor') (box : Box) (stripeAxis : Z)
    (block1 block2 : Block) (replace : Replace) : Outcome :=
  for_gen (Box_inner (Box_of_size (size box)))
    (fun editor pos =>
       match stripedBlock pos stripeAxis block1 block2 with
       | inl e => (editor, Some e)
       | inr block =>
           Editor_placeBlock editor (At (ivec3_add (offset box) pos)) block
                             replace
       end)
    editor.

(** Places a stripe pattern in the box between [first] and [last]
    (inclusive). *)
Definition placeStripedCuboid (editor : Editor') (first last : ivec3)
    (stripeAxis : Z) (block1 block2 : Block) (replace : Replace) : Outcome :=
  placeStripedBox editor (Box_between first last) stripeAxis block1 block2
                  replace.

(** Places a line of [block] blocks from [first] to [last] (inclusive). *)
Definition placeLine (editor : Editor') (first last : ivec3) (block : Block)
    (width : Z) (replace : Replace) : Outcome :=
  let first := Transform_mul (transform editor) first in
  let last := Transform_mul (transform editor) last in
  let block := Block_transformed block (Transform_rotation (transform editor))
                                 (Transform_flip (transform editor)) in
  Editor_placeBlockGlobal editor (Each (line3D first last width)) block replace.

(** Place lines that run from point to point. *)
Definition placeLineSequence (editor : Editor') (points : list ivec3)
    (block : Block) (closed : bool) (replace : Replace) : Outcome :=
  Editor_placeBlock editor (Each (lineSequence3D points closed)) block replace.

(** Place a cylindric shape centered on [baseCenter]. *)
Definition placeCylinder (editor : Editor') (baseCenter : ivec3)
    (diameters : Diameters) (length : Z) (block : Block) (axis : Z)
    (tube hollow : bool) (replace : Replace) : Outcome :=
  Editor_placeBlock editor
    (Each (cylinder baseCenter diameters length axis tube hollow)) block
    replace.

(** Place a cylindric shape that fills the entire region. *)
Definition placeFittingCylinder (editor : Editor') (corner1 corner2 : ivec3)
    (block : Block) (axis : Z) (tube hollow : bool) (replace : Replace)
    : Outcome :=
  let corner1 := Transform_mul (transform editor) corner1 in
  let corner2 := Transform_mul (transform editor) corner2 in
  let block := Block_transformed block (Transform_rotation (transform editor))
                                 (Transform_flip (transform editor)) in
  Editor_placeBlockGlobal editor
    (Each (fittingCylinder corner1 corner2 axis tube hollow)) block replace.

(* ------------------------------------------------------------------ *)
(** ** Calls of the layer and what is observed of them *)

(** One call of a function of the layer with its arguments. *)
Inductive Invocation :=
| CallPlaceCuboid (first last : ivec3) (block : Block) (replace : Replace)
| CallPlaceCuboidHollow (first last : ivec3) (block : Block) (replace : Replace)
| CallPlaceCuboidWireframe (first last : ivec3) (block : Block)
    (replace : Replace)
| CallPlaceBox (box : Box) (block : Block) (replace : Replace)
| CallPlaceBoxHollow (box : Box) (block : Block) (replace : Replace)
| CallPlaceBoxWireframe (box : Box) (block : Block) (replace : Replace)
| CallPlaceRect (rect : Rect) (y : Z) (block : Block) (replace : Replace)
| CallPlaceRectOutline (rect : Rect) (y : Z) (block : Block) (replace : Replace)
| CallPlaceCheckeredCuboid (first last : ivec3) (block1 block2 : Block)
    (replace : Replace)
| CallPlaceCheckeredBox (box : Box) (block1 block2 : Block) (replace : Replace)
| CallPlaceStripedCuboid (first last : ivec3) (stripeAxis : Z)
    (block1 block2 : Block) (replace : Replace)
| CallPlaceStripedBox (box : Box) (stripeAxis : Z) (block1 block2 : Block)
    (replace : Replace)
| CallPlaceLine (first last : ivec3) (block : Block) (width : Z)
    (replace : Replace)
| CallPlaceLineSequence (points : list ivec3) (block : Block) (closed : bool)
    (replace : Replace)
| CallPlaceCylinder (baseCenter : ivec3) (diameters : Diameters) (length : Z)
    (block : Block) (axis : Z) (tube hollow : bool) (replace : Replace)
| CallPlaceFittingCylinder (corner1 corner2 : ivec3) (block : Block) (axis : Z)
    (tube hollow : bool) (replace : Replace).

(** Running a call on an editor. *)
Definition invoke (i : Invocation) (editor : Editor') : Outcome :=
  match i with
  | CallPlaceCuboid first last block replace =>
      placeCuboid editor first last block replace
  | CallPlaceCuboidHollow first last block replace =>
      placeCuboidHollow editor first last block replace
  | CallPlaceCuboidWireframe first last block replace =>
      placeCuboidWireframe editor first last block replace
  | CallPlaceBox box block replace => placeBox editor box block replace
  | CallPlaceBoxHollow box block replace =>
      placeBoxHollow editor box block replace
  | CallPlaceBoxWireframe box block replace =>
      placeBoxWireframe editor box block replace
  | CallPlaceRect rect y block replace => placeRect editor rect y block replace
  | CallPlaceRectOutline rect y block replace =>
      placeRectOutline editor rect y block replace
  | CallPlaceCheckeredCuboid first last block1 block2 replace =>
      placeCheckeredCuboid editor first last block1 block2 replace
  | CallPlaceCheckeredBox box block1 block2 replace =>
      placeCheckeredBox editor box block1 block2 replace
  | CallPlaceStripedCuboid first last stripeAxis block1 block2 replace =>
      placeStripedCuboid editor first last stripeAxis block1 block2 replace
  | CallPlaceStripedBox box stripeAxis block1 block2 replace =>
      placeStripedBox editor box stripeAxis block1 block2 replace
  | CallPlaceLine first last block width replace =>
      placeLine editor first last block width replace
  | CallPlaceLineSequence points block closed replace =>
      placeLineSequence editor points block closed replace
  | CallPlaceCylinder baseCenter diameters length block axis tube hollow
                      replace =>
      placeCylinder editor baseCenter diameters length block axis tube hollow
                    replace
  | CallPlaceFittingCylinder corner1 corner2 block axis tube hollow replace =>
      placeFittingCylinder editor corner1 corner2 block axis tube hollow replace
  end.

(** Componentwise minimum and maximum. *)
Definition vmin (a q : ivec3) : ivec3 :=
  mk_ivec3 (Z.min (vx a) (vx q)) (Z.min (vy a) (vy q)) (Z.min (vz a) (vz q)).

Definition vmax (a q : ivec3) : ivec3 :=
  mk_ivec3 (Z.max (vx a) (vx q)) (Z.max (vy a) (vy q)) (Z.max (vz a) (vz q)).

(** The bounding box of a list of points, if it has any. *)
Definition boundingBox (ps : list ivec3) : option Box :=
  match ps with
  | [] => None
  | p :: rest =>
      Some (Box_between (fold_left vmin rest p) (fold_left vmax rest p))
  end.

(** The block argument of a placement call. *)
Definition Call_block (c : Call') : Block :=
  match c with
  | PlaceBlockGlobal _ block _ => block
  | PlaceBlock _ block _ => block
  end.

(** How far a loop of placement calls got, [n] calls out of [len]: all the
    way if nothing escaped. *)
Definition completed (raised : option Err) (n len : nat) : Prop :=
  match raised with
  | None => n = len
  | Some _ => (n <= len)%nat
  end.

End Layer.

(* ------------------------------------------------------------------ *)
(** ** The layer when transforms and blocks may raise

    [editor.transform * vec] and [block.transformed(rotation, flip)] are
    calls of collaborators too.  Here they may raise; the functions that
    use them are embedded again, line by line, with the exception
    escaping where the source evaluates the call.  The other functions of
    the layer call neither and are those of the first part. *)

(** Modelled from the spec: the exceptions of the operations on transforms
    and blocks (transform errors), as parameters. *)
Class Raising `{Collaborators} := {
  (** the exception [transform * vec] raises, if any *)
  Transform_mul_raises : Transform -> ivec3 -> option Err;
  (** the exception [block.transformed(rotation, flip)] raises, if any *)
  Block_transformed_raises : Block -> Rotation -> Flip -> option Err
}.

Module WithExceptions.

Section Layer.

Context `{Raising}.

(** [editor.transform * v]. *)
Definition transform_mul (editor : Editor') (v : ivec3) : Err + ivec3 :=
  match Transform_mul_raises (transform editor) v with
  | Some e => inl e
  | None => inr (Transform_mul (transform editor) v)
  end.

(** [block.transformed(editor.transform.rotation, editor.transform.flip)]. *)
Definition transformed (editor : Editor') (block : Block) : Err + Block :=
  match Block_transformed_raises block (Transform_rotation (transform editor))
                                 (Transform_flip (transform editor)) with
  | Some e => inl e
  | None => inr (Block_transformed block
                   (Transform_rotation (transform editor))
                   (Transform_flip (transform editor)))
  end.

(** An assignment whose right-hand side may raise: the exception escapes
    and the editor is as it was. *)
Definition assign {A} (editor : Editor') (value : Err + A)
    (rest : A -> Outcome) : Outcome :=
  match value with
  | inl e => (editor, Some e)
  | inr a => rest a
  end.

Notation "x <-- value 'within' editor ;; rest" :=
  (assign editor value (fun x => rest))
  (at level 61, value at next level, right associativity).

(** Places a box of [block] blocks from [first] to [last] (inclusive). *)
Definition placeCuboid (editor : Editor') (first last : ivec3) (block : Block)
    (replace : Replace) : Outcome :=
  first <-- transform_mul editor first within editor ;;
  last <-- transform_mul editor last within editor ;;
  block <-- transformed editor block within editor ;;
  Editor_placeBlockGlobal editor (Each (Box_inner (Box_between first last)))
                          block replace.

(** Places a hollow box of [block] blocks from [first] to [last]
    (inclusive). *)
Definition placeCuboidHollow (editor : Editor') (first last : ivec3)
    (block : Block) (replace : Replace) : Outcome :=
  first <-- transform_mul editor first within editor ;;
  last <-- transform_mul editor last within editor ;;
  block <-- transformed editor block within editor ;;
  Editor_placeBlockGlobal editor (Each (Box_shell (Box_between first last)))
                          block replace.

(** Places a wireframe of [block] blocks from [first] to [last]
    (inclusive). *)
Definition placeCuboidWireframe (editor : Editor') (first last : ivec3)
    (block : Block) (replace : Replace) : Outcome :=
  first <-- transform_mul editor first within editor ;;
  last <-- transform_mul editor last within editor ;;
  block <-- transformed editor block within editor ;;
  Editor_placeBlockGlobal editor (Each (Box_wireframe (Box_between first last)))
                          block replace.

(** Places a box of [block] blocks. *)
Definition placeBox (editor : Editor') (box : Box) (block : Block)
    (replace : Replace) : Outcome :=
  if size_has_zero box then (editor, None)
  else placeCuboid editor (Box_begin box) (ivec3_sub_int (Box_end box) 1)
                   block replace.

(** Places a hollow box of [block] blocks. *)
Definition placeBoxHollow (editor : Editor') (box : Box) (block : Block)
    (replace : Replace) : Outcome :=
  if size_has_zero box then (editor, None)
  else placeCuboidHollow editor (Box_begin box) (ivec3_sub_int (Box_end box) 1)
                         block replace.

(** Places a wireframe of [block] blocks. *)
Definition placeBoxWireframe (editor : Editor') (box : Box) (block : Block)
    (replace : Replace) : Outcome :=
  if size_has_zero box then (editor, None)
  else placeCuboidWireframe editor (Box_begin box)
                            (ivec3_sub_int (Box_end box) 1) block replace.

(** Places a rectangle of blocks at height [y]. *)
Definition placeRect (editor : Editor') (rect : Rect) (y : Z) (block : Block)
    (replace : Replace) : Outcome :=
  placeBox editor (Rect_toBox rect y 1) block replace.

(** Places the outline of a rectangle of blocks at height [y]. *)
Definition placeRectOutline (editor : Editor') (rect : Rect) (y : Z)
    (block : Block) (replace : Replace) : Outcome :=
  placeBoxWireframe editor (Rect_toBox rect y 1) block replace.

(** Places a line of [block] blocks from [first] to [last] (inclusive). *)
Definition placeLine (editor : Editor') (first last : ivec3) (block : Block)
    (width : Z) (replace : Replace) : Outcome :=
  first <-- transform_mul editor first within editor ;;
  last <-- transform_mul editor last within editor ;;
  block <-- transformed editor block within editor ;;
  Editor_placeBlockGlobal editor (Each (line3D first last width)) block replace.

(** Place a cylindric shape that fills the entire region. *)
Definition placeFittingCylinder (editor : Editor') (corner1 corner2 : ivec3)
    (block : Block) (axis : Z) (tube hollow : bool) (replace : Replace)
    : Outcome :=
  corner1 <-- transform_mul editor corner1 within editor ;;
  corner2 <-- transform_mul editor corner2 within editor ;;
  block <-- transformed editor block within editor ;;
  Editor_placeBlockGlobal editor
    (Each (fittingCylinder corner1 corner2 axis tube hollow)) block replace.

(** Running a call on an editor.  The pattern, line-sequence and cylinder
    functions neither transform a point nor a block. *)
Definition invoke (i : Invocation) (editor : Editor') : Outcome :=
  match i with
  | CallPlaceCuboid first last block replace =>
      placeCuboid editor first last block replace
  | CallPlaceCuboidHollow first last block replace =>
      placeCuboidHollow editor first last block replace
  | CallPlaceCuboidWireframe first last block replace =>
      placeCuboidWireframe editor first last block replace
  | CallPlaceBox box block replace => placeBox editor box block replace
  | CallPlaceBoxHollow box block replace =>
      placeBoxHollow editor box block replace
  | CallPlaceBoxWireframe box block replace =>
      placeBoxWireframe editor box block replace
  | CallPlaceRect rect y block replace => placeRect editor rect y block replace
  | CallPlaceRectOutline rect y block replace =>
      placeRectOutline editor rect y block replace
  | CallPlaceCheckeredCuboid first last block1 block2 replace =>
      placeCheckeredCuboid editor first last block1 block2 replace
  | CallPlaceCheckeredBox box block1 block2 replace =>
      placeCheckeredBox editor box block1 block2 replace
  | CallPlaceStripedCuboid first last stripeAxis block1 block2 replace =>
      placeStripedCuboid editor first last stripeAxis block1 block2 replace
  | CallPlaceStripedBox box stripeAxis block1 block2 replace =>
      placeStripedBox editor box stripeAxis block1 block2 replace
  | CallPlaceLine first last block width replace =>
      placeLine editor first last block width replace
  | CallPlaceLineSequence points block closed replace =>
      placeLineSequence editor points block closed replace
  | CallPlaceCylinder baseCenter diameters length block axis tube hollow
                      replace =>
      placeCylinder editor baseCenter diameters length block axis tube hollow
                    replace
  | CallPlaceFittingCylinder corner1 corner2 block axis tube hollow replace =>
      placeFittingCylinder editor corner1 corner2 block axis tube hollow replace
  end.

(** The points a call hands to [editor.transform * _], in the order of the
    source. *)
Definition corners_of (i : Invocation) : list ivec3 :=
  match i with
  | CallPlaceCuboid first last _ _
  | CallPlaceCuboidHollow first last _ _
  | CallPlaceCuboidWireframe first last _ _
  | CallPlaceLine first last _ _ _
  | CallPlaceFittingCylinder first last _ _ _ _ _ => [first; last]
  | CallPlaceBox box _ _
  | CallPlaceBoxHollow box _ _
  | CallPlaceBoxWireframe box _ _ =>
      if size_has_zero box then []
      else [Box_begin box; ivec3_sub_int (Box_end box) 1]
  | CallPlaceRect rect y _ _
  | CallPlaceRectOutline rect y _ _ =>
      if size_has_zero (Rect_toBox rect y 1) then []
      else [Box_begin (Rect_toBox rect y 1);
            ivec3_sub_int (Box_end (Rect_toBox rect y 1)) 1]
  | _ => []
  end.

(** The block a call hands to [block.transformed], if it does. *)
Definition turned_of (i : Invocation) : option Block :=
  match i with
  | CallPlaceCuboid _ _ block _
  | CallPlaceCuboidHollow _ _ block _
  | CallPlaceCuboidWireframe _ _ block _
  | CallPlaceLine _ _ block _ _
  | CallPlaceFittingCylinder _ _ block _ _ _ _ => Some block
  | CallPlaceBox box block _
  | CallPlaceBoxHollow box block _
  | CallPlaceBoxWireframe box block _ =>
      if size_has_zero box then None else Some block
  | CallPlaceRect rect y block _
  | CallPlaceRectOutline rect y block _ =>
      if size_has_zero (Rect_toBox rect y 1) then None else Some block
  | _ => None
  end.

(** The local positions a call indexes with [stripeAxis], and the axis. *)
Definition indexed_of (i : Invocation) : list ivec3 * Z :=
  match i with
  | CallPlaceStripedCuboid first last stripeAxis _ _ _ =>
      (Box_points (Box_of_size (size (Box_between first last))), stripeAxis)
  | CallPlaceStripedBox box stripeAxis _ _ _ =>
      (Box_points (Box_of_size (size box)), stripeAxis)
  | _ => ([], 0)
  end.

(** Exception [e], escaping call [i] on [editor] with outcome [out], was
    raised by a collaborator in an operation of that call: the transform
    on one of its corners or the block on its re-orientation, before any
    placement; the vector library on indexing one of its local positions
    with its [stripeAxis]; or the editor on the last placement call it
    received, in the state the earlier calls of [i] had left it in. *)
Definition raised_by (i : Invocation) (editor : Editor') (e : Err)
    (out : Outcome) : Prop :=
  (exists v, In v (corners_of i)
             /\ Transform_mul_raises (transform editor) v = Some e
             /\ fst out = editor)
  \/ (exists block, turned_of i = Some block
        /\ Block_transformed_raises block
             (Transform_rotation (transform editor))
             (Transform_flip (transform editor)) = Some e
        /\ fst out = editor)
  \/ (exists pos, In pos (fst (indexed_of i))
        /\ ivec3_getitem pos (snd (indexed_of i)) = inl e)
  \/ (exists (cs : list Call') (c : Call'),
        journal (fst out) = journal editor ++ cs ++ [c]
        /\ Editor_raises (mk_Editor (transform editor) (journal editor ++ cs))
                         c = Some e).

(** The function got as far as its one placement call, unless an
    exception escaped before it with the editor as it was. *)
Definition one_call_unless_raised (editor : Editor') (out : Outcome) : Prop :=
  (fst out = editor /\ snd out <> None)
  \/ (exists c : Call',
        fst out = mk_Editor (transform editor) (journal editor ++ [c])
        /\ snd out = Editor_raises editor c).

(** The calls of the checker loop: the positions of [Box(size).inner] in
    order, up to the one that raised if one did. *)
Definition checkered_calls (editor : Editor') (box : Box)
    (block1 block2 : Block) (replace : Replace) (out : Outcome) : Prop :=
  let local := Box_points (Box_of_size (size box)) in
  exists n : nat,
    journal (fst out)
    = journal editor
      ++ map (fun pos => PlaceBlock (At (ivec3_add (offset box) pos))
                           (checkeredBlock pos block1 block2) replace)
             (firstn n local)
    /\ completed (snd out) n (List.length local).

(** The calls of the stripe loop, likewise; the block of each call is the
    one the indexing of its position chose. *)
Definition striped_calls (editor : Editor') (box : Box) (stripeAxis : Z)
    (block1 block2 : Block) (replace : Replace) (out : Outcome) : Prop :=
  let local := Box_points (Box_of_size (size box)) in
  exists (n : nat) (cs : list Call'),
    journal (fst out) = journal editor ++ cs
    /\ Forall2 (fun pos c =>
                  exists block,
                    stripedBlock pos stripeAxis block1 block2 = inr block
                    /\ c = PlaceBlock (At (ivec3_add (offset box) pos)) block
                                      replace)
               (firstn n local) cs
    /\ completed (snd out) n (List.length local).

(** What call [i] asks of the editor. *)
Definition calls_made (i : Invocation) (editor : Editor') (out : Outcome)
    : Prop :=
  match i with
  | CallPlaceBox box _ _
  | CallPlaceBoxHollow box _ _
  | CallPlaceBoxWireframe box _ _ =>
      if size_has_zero box then out = (editor, None)
      else one_call_unless_raised editor out
  | CallPlaceRect rect y _ _
  | CallPlaceRectOutline rect y _ _ =>
      if size_has_zero (Rect_toBox rect y 1) then out = (editor, None)
      else one_call_unless_raised editor out
  | CallPlaceCheckeredCuboid first last block1 block2 replace =>
      checkered_calls editor (Box_between first last) block1 block2 replace out
  | CallPlaceCheckeredBox box block1 block2 replace =>
      checkered_calls editor box block1 block2 replace out
  | CallPlaceStripedCuboid first last stripeAxis block1 block2 replace =>
      striped_calls editor (Box_between first last) stripeAxis block1 block2
                    replace out
  | CallPlaceStripedBox box stripeAxis block1 block2 replace =>
      striped_calls editor box stripeAxis block1 block2 replace out
  | CallPlaceLineSequence _ _ _ _
  | CallPlaceCylinder _ _ _ _ _ _ _ _ =>
      exists c : Call',
        fst out = mk_Editor (transform editor) (journal editor ++ [c])
        /\ snd out = Editor_raises editor c
  | _ => one_call_unless_raised editor out
  end.

End Layer.

End WithExceptions.

(* ------------------------------------------------------------------ *)
(** ** Stand-in collaborators

    Small executable collaborators, used to run the layer on concrete
    inputs. *)

Module Sample.

(** Modelled from the spec: a [Block], an identifier and an orientation
    (here a number of quarter turns). *)
Record SBlock := mk_SBlock { block_id : string; facing : Z }.

(** Modelled from the spec: a [Transform], a rotation in quarter turns
    about the vertical axis, a flip per axis and a translation. *)
Record STransform := mk_STransform {
  translation : ivec3;
  rotation : Z;
  flip : bool * bool * bool
}.

Definition identity : STransform :=
  mk_STransform ivec3_zero 0 (false, false, false).

Definition flipped (f : bool) (v : Z) : Z := if f then - v else v.

(** Modelled from the spec: [transform * vec], flip, then rotate, then
    translate. *)
Definition apply (t : STransform) (v : ivec3) : ivec3 :=
  let '(fx, fy, fz) := flip t in
  let x := flipped fx (vx v) in
  let y := flipped fy (vy v) in
  let z := flipped fz (vz v) in
  let r := rotation t mod 4 in
  let xz := if r =? 0 then (x, z) else if r =? 1 then (- z, x)
            else if r =? 2 then (- x, - z) else (z, - x) in
  ivec3_add (mk_ivec3 (fst xz) y (snd xz)) (translation t).

(** Modelled from the spec: [Block.transformed(rotation, flip)], a
    re-oriented copy. *)
Definition transformed (b : SBlock) (r : Z) (f : bool * bool * bool) : SBlock :=
  let '(fx, _, fz) := f in
  let turned := if xorb fx fz then - facing b else facing b in
  mk_SBlock (block_id b) ((turned + r) mod 4).

(** Modelled from the spec: [line3D(begin, end, width)], the points of a
    straight line; a width below one is invalid. *)
Definition line (a b : ivec3) (width : Z) : PointGen string :=
  if width <=? 0 then mk_PointGen [] (Some "invalid width"%string)
  else
    let dx := vx b - vx a in
    let dy := vy b - vy a in
    let dz := vz b - vz a in
    let n := Z.max (Z.abs dx) (Z.max (Z.abs dy) (Z.abs dz)) in
    if n =? 0 then PointGen_of [a]
    else
      let step k d := (2 * k * d + n) / (2 * n) in
      PointGen_of (map (fun k => mk_ivec3 (vx a + step k dx) (vy a + step k dy)
                                          (vz a + step k dz))
                       (range 0 (n + 1))).

(** The two coordinates of [v] across [axis] and the one along it. *)
Definition across (axis : Z) (v : ivec3) : Z * Z * Z :=
  if axis =? 0 then (vy v, vz v, vx v)
  else if axis =? 1 then (vx v, vz v, vy v)
  else (vx v, vy v, vz v).

(** The vector with [a], [b] across [axis] and [h] along it. *)
Definition along (axis : Z) (a b h : Z) : ivec3 :=
  if axis =? 0 then mk_ivec3 h a b
  else if axis =? 1 then mk_ivec3 a h b
  else mk_ivec3 a b h.

(** Modelled from the spec: [fittingCylinder] as [cylinder] uses it; an
    axis other than 0, 1 and 2 is invalid. *)
Definition fitting (corner1 corner2 : ivec3) (axis : Z) (tube hollow : bool)
    : PointGen string :=
  if (axis <? 0) || (2 <? axis)
  then mk_PointGen [] (Some "invalid axis"%string)
  else PointGen_of (fittingCylinder_points corner1 corner2 axis tube hollow).

(** Modelled from the spec: [cylinder(baseCenter, diameters, length, axis,
    tube, hollow)], the cylinder on a base centre; a dimension below one is
    invalid. *)
Definition cyl (baseCenter : ivec3) (diameters : Diameters) (length axis : Z)
    (tube hollow : bool) : PointGen string :=
  let '(da, db) := match diameters with
                   | DiameterInt d => (d, d)
                   | DiameterVec v => (ux v, uy v)
                   end in
  if (da <=? 0) || (db <=? 0) || (length <=? 0)
  then mk_PointGen [] (Some "invalid dimensions"%string)
  else
    let '(ca, cb, ch) := across axis baseCenter in
    let corner1 := along axis (ca - (da - 1) / 2) (cb - (db - 1) / 2) ch in
    let corner2 :=
      ivec3_add corner1 (along axis (da - 1) (db - 1) (length - 1)) in
    fitting corner1 corner2 axis tube hollow.

(** Modelled from the spec: a placement call consumes its positions, so an
    exception of the generator escapes the call. *)
Definition editor_raises (editor : Editor string SBlock STransform)
    (c : Call string SBlock) : option string :=
  match c with
  | PlaceBlockGlobal (Each g) _ _ => raises g
  | PlaceBlock (Each g) _ _ => raises g
  | _ => None
  end.

#[export] Instance collaborators : Collaborators := {|
  Err := string;
  Block := SBlock;
  Block_empty := mk_SBlock ""%string 0;
  Rotation := Z;
  Flip := (bool * bool * bool)%type;
  Block_transformed := transformed;
  Transform := STransform;
  Transform_mul := apply;
  Transform_rotation := rotation;
  Transform_flip := flip;
  line3D := line;
  cylinder := cyl;
  fittingCylinder_other :=
    fun _ _ _ _ _ => mk_PointGen [] (Some "invalid axis"%string);
  ivec3_getitem_other := fun _ _ => inl "index out of range"%string;
  Editor_raises := editor_raises
|}.

(** A fresh editor with transform [t]. *)
Definition editor (t : STransform) : Editor' := mk_Editor (t : Transform) [].

Definition stone : SBlock := mk_SBlock "stone"%string 0.
Definition glass : SBlock := mk_SBlock "glass"%string 0.
Definition stairs : SBlock := mk_SBlock "oak_stairs"%string 1.

(** A transform that turns by a quarter and moves by (10, 0, 0). *)
Definition turned : STransform :=
  mk_STransform (mk_ivec3 10 0 0) 1 (false, false, false).

(** Two editors that have received nothing yet. *)
Definition at_origin : Editor' := editor identity.
Definition turned_editor : Editor' := editor turned.

(** A box without thickness, a box with a negative size, two small
    boxes. *)
Definition flat_box : Box := mk_Box (mk_ivec3 5 5 5) (mk_ivec3 2 0 3).
Definition inverted_box : Box := mk_Box (mk_ivec3 5 5 5) (mk_ivec3 (-1) 1 1).
Definition small_box : Box := mk_Box (mk_ivec3 5 5 5) (mk_ivec3 2 1 3).
Definition thin_box : Box := mk_Box (mk_ivec3 5 5 5) (mk_ivec3 1 1 2).

End Sample.

(* ------------------------------------------------------------------ *)
(** ** What a call of the layer was given, and what a placement call
    carries *)

Section Given.

Context `{Collaborators}.

(** The [replace] argument of a call of the layer. *)
Definition Invocation_replace (i : Invocation) : Replace :=
  match i with
  | CallPlaceCuboid _ _ _ replace
  | CallPlaceCuboidHollow _ _ _ replace
  | CallPlaceCuboidWireframe _ _ _ replace
  | CallPlaceBox _ _ replace
  | CallPlaceBoxHollow _ _ replace
  | CallPlaceBoxWireframe _ _ replace
  | CallPlaceRect _ _ _ replace
  | CallPlaceRectOutline _ _ _ replace
  | CallPlaceCheckeredCuboid _ _ _ _ replace
  | CallPlaceCheckeredBox _ _ _ replace
  | CallPlaceStripedCuboid _ _ _ _ _ replace
  | CallPlaceStripedBox _ _ _ _ replace
  | CallPlaceLine _ _ _ _ replace
  | CallPlaceLineSequence _ _ _ replace
  | CallPlaceCylinder _ _ _ _ _ _ _ replace
  | CallPlaceFittingCylinder _ _ _ _ _ _ replace => replace
  end.

(** Whether the function places through [editor.placeBlockGlobal] (the
    cuboid, box, rectangle, line and fitting-cylinder functions) or
    through [editor.placeBlock] (the pattern, line-sequence and cylinder
    functions). *)
Definition Invocation_global (i : Invocation) : bool :=
  match i with
  | CallPlaceCheckeredCuboid _ _ _ _ _
  | CallPlaceCheckeredBox _ _ _ _
  | CallPlaceStripedCuboid _ _ _ _ _ _
  | CallPlaceStripedBox _ _ _ _ _
  | CallPlaceLineSequence _ _ _ _
  | CallPlaceCylinder _ _ _ _ _ _ _ _ => false
  | _ => true
  end.

(** The [replace] argument of a placement call. *)
Definition Call_replace (c : Call') : Replace :=
  match c with
  | PlaceBlockGlobal _ _ replace => replace
  | PlaceBlock _ _ replace => replace
  end.

(** Whether a placement call is a call of [placeBlockGlobal]. *)
Definition Call_global (c : Call') : bool :=
  match c with
  | PlaceBlockGlobal _ _ _ => true
  | PlaceBlock _ _ _ => false
  end.

(** [pos - origin] on vectors. *)
Definition ivec3_sub (pos origin : ivec3) : ivec3 :=
  mk_ivec3 (vx pos - vx origin) (vy pos - vy origin) (vz pos - vz origin).

End Given.

(** Stand-in collaborators whose editor refuses single positions above a
    build height. *)
Module BuildArea.

(** Modelled from the spec: a placement call that fails, here on a single
    position above y = 255; on an iterable the exception of the generator
    escapes. *)
Definition editor_raises
    (editor : Editor string Sample.SBlock Sample.STransform)
    (c : Call string Sample.SBlock) : option string :=
  match c with
  | PlaceBlockGlobal (At p) _ _ | PlaceBlock (At p) _ _ =>
      if 255 <? vy p then Some "above the build height"%string else None
  | PlaceBlockGlobal (Each g) _ _ | PlaceBlock (Each g) _ _ => raises g
  end.

Definition collaborators : Collaborators := {|
  Err := string;
  Block := Sample.SBlock;
  Block_empty := Sample.mk_SBlock ""%string 0;
  Rotation := Z;
  Flip := (bool * bool * bool)%type;
  Block_transformed := Sample.transformed;
  Transform := Sample.STransform;
  Transform_mul := Sample.apply;
  Transform_rotation := Sample.rotation;
  Transform_flip := Sample.flip;
  line3D := Sample.line;
  cylinder := Sample.cyl;
  fittingCylinder_other :=
    fun _ _ _ _ _ => mk_PointGen [] (Some "invalid axis"%string);
  ivec3_getitem_other := fun _ _ => inl "index out of range"%string;
  Editor_raises := editor_raises
|}.

(** A column of four cells that starts two below the build height. *)
Definition tall_box : Box := mk_Box (mk_ivec3 5 254 5) (mk_ivec3 1 4 1).

End BuildArea.

(** Stand-in transforms and blocks that raise: a rotation is a number of
    quarter turns from 0 to 3, anything else is an error. *)
Module Quarter.

Definition invalid (r : Z) : option string :=
  if (r <? 0) || (3 <? r) then Some "invalid rotation"%string else None.

(** Modelled from the spec: a transform error of [transform * vec]. *)
Definition mul_raises (t : Sample.STransform) (v : ivec3) : option string :=
  invalid (Sample.rotation t).

(** Modelled from the spec: a transform error of [Block.transformed]. *)
Definition transformed_raises (b : Sample.SBlock) (r : Z)
    (f : bool * bool * bool) : option string :=
  invalid r.

Definition raising : @Raising Sample.collaborators :=
  @Build_Raising Sample.collaborators mul_raises transformed_raises.

(** An editor whose transform has an invalid rotation. *)
Definition skewed_editor : @Editor' Sample.collaborators :=
  mk_Editor (Sample.mk_STransform ivec3_zero 5 (false, false, false)) [].

End Quarter.

(* ------------------------------------------------------------------ *)
(** ** Ranges and boxes *)

Lemma wrap_int32 (z : Z) : int32 z -> wrap z = z.
Proof.
  unfold int32, wrap. intros Hz. rewrite Z.mod_small by lia. lia.
Qed.

Lemma ivec3_wrap_int32 (v : ivec3) : ivec3_int32 v -> ivec3_wrap v = v.
Proof.
  intros (Hx & Hy & Hz). destruct v as [x y z]. unfold ivec3_wrap. simpl in *.
  now rewrite !wrap_int32.
Qed.

Lemma In_range (lo hi v : Z) : In v (range lo hi) <-> lo <= v < hi.
Proof.
  unfold range. rewrite in_map_iff. split.
  - intros (i & <- & Hi). apply in_seq in Hi. lia.
  - intros Hv. exists (Z.to_nat (v - lo)). split; [lia|].
    apply in_seq. lia.
Qed.

Lemma NoDup_range (lo hi : Z) : NoDup (range lo hi).
Proof.
  unfold range. generalize (Z.to_nat (hi - lo)) as n. intros n.
  generalize 0%nat as s. induction n as [|n IH]; intros s; simpl.
  - constructor.
  - constructor; [|apply IH].
    rewrite in_map_iff. intros (i & Heq & Hi). apply in_seq in Hi. lia.
Qed.

Lemma In_Box_points (b : Box) (p : ivec3) :
  In p (Box_points b) <->
  vx (Box_begin b) <= vx p < vx (Box_end b) /\
  vy (Box_begin b) <= vy p < vy (Box_end b) /\
  vz (Box_begin b) <= vz p < vz (Box_end b).
Proof.
  unfold Box_points. rewrite in_flat_map. split.
  - intros (x & Hx & Hin). rewrite in_flat_map in Hin.
    destruct Hin as (y & Hy & Hin). rewrite in_map_iff in Hin.
    destruct Hin as (z & <- & Hz). rewrite In_range in Hx, Hy, Hz.
    simpl. auto.
  - intros (Hx & Hy & Hz). exists (vx p). rewrite In_range. split; [exact Hx|].
    rewrite in_flat_map. exists (vy p). rewrite In_range. split; [exact Hy|].
    rewrite in_map_iff. exists (vz p). rewrite In_range.
    destruct p; auto.
Qed.

Lemma NoDup_flat_map {A B} (f : A -> list B) (l : list A) :
  NoDup l ->
  (forall a, In a l -> NoDup (f a)) ->
  (forall a a' b, In a l -> In a' l -> In b (f a) -> In b (f a') -> a = a') ->
  NoDup (flat_map f l).
Proof.
  induction 1 as [|a l Hnotin Hnd IH]; intros Hf Hsep; simpl.
  - constructor.
  - assert (Htail : NoDup (flat_map f l)).
    { apply IH.
      - intros a' Ha'. apply Hf. now right.
      - intros a1 a2 b H1 H2. apply Hsep; now right. }
    assert (Hhead : NoDup (f a)) by (apply Hf; now left).
    revert Hhead. generalize (Hsep a). generalize (f a) as fa.
    induction fa as [|b fa IHfa]; intros Hsepa Hhead; simpl; [exact Htail|].
    inversion Hhead as [|? ? Hb Hfa]; subst. constructor.
    + rewrite in_app_iff. intros [Hin|Hin]; [contradiction|].
      rewrite in_flat_map in Hin. destruct Hin as (a' & Ha' & Hin).
      assert (a = a') by (apply (Hsepa a' b); simpl; auto).
      subst. contradiction.
    + apply IHfa; [|exact Hfa].
      intros a' b' Ha Ha' Hb' Hb''. apply (Hsepa a' b'); simpl; auto.
Qed.

Lemma NoDup_Box_points (b : Box) : NoDup (Box_points b).
Proof.
  unfold Box_points. apply NoDup_flat_map.
  - apply NoDup_range.
  - intros x _. apply NoDup_flat_map.
    + apply NoDup_range.
    + intros y _. apply Injective_map_NoDup; [|apply NoDup_range].
      intros z z' Heq. now inversion Heq.
    + intros y y' q _ _ Hq Hq'. rewrite in_map_iff in Hq, Hq'.
      destruct Hq as (z & <- & _). destruct Hq' as (z' & Heq & _).
      now inversion Heq.
  - intros x x' q _ _ Hq Hq'. rewrite in_flat_map in Hq, Hq'.
    destruct Hq as (y & _ & Hq). destruct Hq' as (y' & _ & Hq').
    rewrite in_map_iff in Hq, Hq'.
    destruct Hq as (z & <- & _). destruct Hq' as (z' & Heq & _).
    now inversion Heq.
Qed.

Lemma Box_between_comm (a b : ivec3) : Box_between a b = Box_between b a.
Proof.
  unfold Box_between. f_equal; f_equal; lia.
Qed.

Lemma In_Box_between (a b p : ivec3) :
  In p (Box_points (Box_between a b)) <->
  Z.min (vx a) (vx b) <= vx p <= Z.max (vx a) (vx b) /\
  Z.min (vy a) (vy b) <= vy p <= Z.max (vy a) (vy b) /\
  Z.min (vz a) (vz b) <= vz p <= Z.max (vz a) (vz b).
Proof.
  rewrite In_Box_points. unfold Box_end, Box_begin, Box_between. simpl. lia.
Qed.

Lemma range_empty (lo hi : Z) : hi <= lo -> range lo hi = [].
Proof.
  intros Hle. unfold range.
  replace (Z.to_nat (hi - lo)) with 0%nat by lia. reflexivity.
Qed.

Lemma range_cons (lo hi : Z) : lo < hi -> range lo hi = lo :: range (lo + 1) hi.
Proof.
  intros Hlt. unfold range.
  replace (Z.to_nat (hi - lo)) with (S (Z.to_nat (hi - (lo + 1)))) by lia.
  simpl. rewrite Z.add_0_r. f_equal.
  rewrite <- seq_shift, map_map. apply map_ext. intros i. lia.
Qed.

Lemma length_range (lo hi : Z) : List.length (range lo hi) = Z.to_nat (hi - lo).
Proof.
  unfold range. now rewrite length_map, length_seq.
Qed.

Lemma range_shift (o lo hi : Z) :
  map (Z.add o) (range lo hi) = range (o + lo) (o + hi).
Proof.
  unfold range. rewrite map_map.
  replace (o + hi - (o + lo)) with (hi - lo) by lia.
  apply map_ext. intros i. lia.
Qed.

Lemma length_flat_map_const {A B} (f : A -> list B) (l : list A) (n : nat) :
  (forall a, List.length (f a) = n) ->
  List.length (flat_map f l) = (List.length l * n)%nat.
Proof.
  intros Hf. induction l as [|a l IH]; simpl; [reflexivity|].
  now rewrite length_app, Hf, IH.
Qed.

Lemma length_Box_points (b : Box) :
  List.length (Box_points b)
  = (Z.to_nat (vx (size b))
     * (Z.to_nat (vy (size b)) * Z.to_nat (vz (size b))))%nat.
Proof.
  unfold Box_points.
  rewrite (length_flat_map_const _ _
             (Z.to_nat (vy (size b)) * Z.to_nat (vz (size b)))).
  - rewrite length_range. unfold Box_end, Box_begin. simpl. f_equal. lia.
  - intros x. rewrite (length_flat_map_const _ _ (Z.to_nat (vz (size b)))).
    + rewrite length_range. unfold Box_end, Box_begin. simpl. f_equal. lia.
    + intros y. rewrite length_map, length_range.
      unfold Box_end, Box_begin. simpl. lia.
Qed.

Lemma Box_points_empty (b : Box) :
  vx (size b) <= 0 \/ vy (size b) <= 0 \/ vz (size b) <= 0 ->
  Box_points b = [].
Proof.
  intros Hsize. apply length_zero_iff_nil. rewrite length_Box_points.
  destruct Hsize as [Hs | [Hs | Hs]].
  - replace (Z.to_nat (vx (size b))) with 0%nat by lia. reflexivity.
  - replace (Z.to_nat (vy (size b))) with 0%nat by lia. lia.
  - replace (Z.to_nat (vz (size b))) with 0%nat by lia. lia.
Qed.

Lemma Box_points_head (b : Box) :
  0 < vx (size b) -> 0 < vy (size b) -> 0 < vz (size b) ->
  exists rest, Box_points b = Box_begin b :: rest.
Proof.
  intros Hx Hy Hz. unfold Box_points.
  rewrite (range_cons (vx (Box_begin b))), (range_cons (vy (Box_begin b))),
    (range_cons (vz (Box_begin b)))
    by (unfold Box_end, Box_begin; simpl; lia).
  simpl. destruct b as [[ox oy oz] sz]. simpl. eexists. reflexivity.
Qed.

Lemma range_from (o n : Z) : range o (o + n) = map (Z.add o) (range 0 n).
Proof.
  rewrite range_shift. now rewrite Z.add_0_r.
Qed.

(** The points of a box are those of the box of the same size at the
    origin, moved by the offset. *)
Lemma Box_points_offset (b : Box) :
  Box_points b = map (ivec3_add (offset b)) (Box_points (Box_of_size (size b))).
Proof.
  unfold Box_points, Box_begin, Box_end, Box_of_size. simpl.
  rewrite !range_from.
  rewrite !flat_map_concat_map, !concat_map, !map_map. f_equal.
  apply map_ext. intros x.
  rewrite !flat_map_concat_map, !concat_map, !map_map. f_equal.
  apply map_ext. intros y. rewrite !map_map. apply map_ext. intros z.
  reflexivity.
Qed.

(** A box of positive size is the box between its first and its last
    point. *)
Lemma Box_between_begin_last (b : Box) :
  0 < vx (size b) -> 0 < vy (size b) -> 0 < vz (size b) ->
  Box_between (Box_begin b) (ivec3_sub_int (Box_end b) 1) = b.
Proof.
  intros Hx Hy Hz. destruct b as [[ox oy oz] [sx sy sz]].
  unfold Box_between, Box_begin, Box_end. simpl in *.
  f_equal; f_equal; lia.
Qed.

Section Properties.

Context `{Collaborators}.

Lemma journal_grows (editor : Editor') (c : Call') :
  journal editor ++ [c] <> journal editor.
Proof.
  intros Heq. apply (f_equal (@List.length _)) in Heq.
  rewrite length_app in Heq. simpl in Heq. lia.
Qed.

Lemma size_has_zero_true (box : Box) :
  size_has_zero box = true <->
  vx (size box) = 0 \/ vy (size box) = 0 \/ vz (size box) = 0.
Proof.
  unfold size_has_zero. rewrite !orb_true_iff, !Z.eqb_eq. tauto.
Qed.

Lemma size_has_zero_false (box : Box) :
  size_has_zero box = false <->
  vx (size box) <> 0 /\ vy (size box) <> 0 /\ vz (size box) <> 0.
Proof.
  unfold size_has_zero. rewrite !orb_false_iff, !Z.eqb_neq. tauto.
Qed.

(** C1.  A box with a zero size component: [placeBox], [placeBoxHollow]
    and [placeBoxWireframe] return normally and leave the editor as it
    was, so no placement call is made.  The guard is what prevents the
    call: the cuboid function each would delegate to adds a call to the
    journal on the same arguments. *)
Theorem placeBox_zero_size_is_noop (editor : Editor') (box : Box)
    (block : Block) (replace : Replace) :
  vx (size box) = 0 \/ vy (size box) = 0 \/ vz (size box) = 0 ->
  let first := Box_begin box in
  let last := ivec3_sub_int (Box_end box) 1 in
  (placeBox editor box block replace = (editor, None)
   /\ journal (fst (placeCuboid editor first last block replace))
      <> journal editor)
  /\ (placeBoxHollow editor box block replace = (editor, None)
      /\ journal (fst (placeCuboidHollow editor first last block replace))
         <> journal editor)
  /\ (placeBoxWireframe editor box block replace = (editor, None)
      /\ journal (fst (placeCuboidWireframe editor first last block replace))
         <> journal editor).
Proof.
  intros Hzero first last. apply size_has_zero_true in Hzero.
  unfold placeBox, placeBoxHollow, placeBoxWireframe. rewrite Hzero.
  repeat split; apply journal_grows.
Qed.

(** C9.  A box whose size has no zero component but a negative one: the
    guard does not fire, and each box function is the corresponding cuboid
    function on the corners [box.begin] and [box.end - 1]; a call reaches
    the editor. *)
Theorem placeBox_negative_size_delegates (editor : Editor') (box : Box)
    (block : Block) (replace : Replace) :
  vx (size box) <> 0 -> vy (size box) <> 0 -> vz (size box) <> 0 ->
  vx (size box) < 0 \/ vy (size box) < 0 \/ vz (size box) < 0 ->
  let first := Box_begin box in
  let last := ivec3_sub_int (Box_end box) 1 in
  (placeBox editor box block replace
   = placeCuboid editor first last block replace
   /\ placeBox editor box block replace <> (editor, None))
  /\ (placeBoxHollow editor box block replace
      = placeCuboidHollow editor first last block replace
      /\ placeBoxHollow editor box block replace <> (editor, None))
  /\ (placeBoxWireframe editor box block replace
      = placeCuboidWireframe editor first last block replace
      /\ placeBoxWireframe editor box block replace <> (editor, None)).
Proof.
  intros Hx Hy Hz _ first last.
  assert (Hguard : size_has_zero box = false)
    by (apply size_has_zero_false; auto).
  unfold placeBox, placeBoxHollow, placeBoxWireframe. rewrite Hguard.
  repeat split; intros Heq;
    apply (f_equal (fun out => journal (fst out))) in Heq;
    simpl in Heq; exact (journal_grows _ _ Heq).
Qed.

(** C2.  [placeCuboid] makes one global placement call whose positions are
    the points of the closed box spanned by the transformed corners, each
    once, with the transformed block; with [first] and [last] swapped the
    outcome is the same. *)
Theorem placeCuboid_closed_box_any_order (editor : Editor') (first last : ivec3)
    (block : Block) (replace : Replace) :
  let a := Transform_mul (transform editor) first in
  let b := Transform_mul (transform editor) last in
  let block' := Block_transformed block (Transform_rotation (transform editor))
                                  (Transform_flip (transform editor)) in
  exists g : PointGen Err,
    placeCuboid editor first last block replace
    = Editor_placeBlockGlobal editor (Each g) block' replace
    /\ journal (fst (placeCuboid editor first last block replace))
       = journal editor ++ [PlaceBlockGlobal (Each g) block' replace]
    /\ raises g = None
    /\ NoDup (yields g)
    /\ (forall p : ivec3,
          In p (yields g) <->
          Z.min (vx a) (vx b) <= vx p <= Z.max (vx a) (vx b) /\
          Z.min (vy a) (vy b) <= vy p <= Z.max (vy a) (vy b) /\
          Z.min (vz a) (vz b) <= vz p <= Z.max (vz a) (vz b))
    /\ placeCuboid editor last first block replace
       = placeCuboid editor first last block replace.
Proof.
  intros a b block'. exists (Box_inner (Box_between a b)).
  split; [reflexivity|]. split; [reflexivity|]. split; [reflexivity|].
  split; [apply NoDup_Box_points|]. split.
  - intros p. apply In_Box_between.
  - unfold placeCuboid. fold a b. now rewrite (Box_between_comm b a).
Qed.


(* ------------------------------------------------------------------ *)
(** ** Loops *)

Lemma for_list_ext {A} (xs : list A) (body body' : Editor' -> A -> Outcome) :
  (forall editor a, In a xs -> body editor a = body' editor a) ->
  forall editor, for_list xs body editor = for_list xs body' editor.
Proof.
  induction xs as [|a xs IH]; intros Hext editor; simpl; [reflexivity|].
  rewrite (Hext editor a) by now left.
  destruct (body' editor a) as [editor' [e|]]; [reflexivity|].
  apply IH. intros ed a' Ha'. apply Hext. now right.
Qed.

Lemma for_list_receive {A} (request : A -> Call') (xs : list A) :
  forall editor : Editor',
    let out := for_list xs (fun ed a => Editor_receive ed (request a)) editor in
    exists n : nat,
      journal (fst out) = journal editor ++ map request (firstn n xs)
      /\ completed (snd out) n (List.length xs).
Proof.
  induction xs as [|a xs IH]; intros editor; simpl.
  - exists 0%nat. simpl. now rewrite app_nil_r.
  - destruct (Editor_raises editor (request a)) as [e|] eqn:Hraise.
    + exists 1%nat. simpl. split; [reflexivity|lia].
    + destruct (IH (mk_Editor (transform editor)
                              (journal editor ++ [request a])))
        as (n & Hj & Hc).
      exists (S n). simpl in *. rewrite Hj, <- app_assoc. split; [reflexivity|].
      destruct (snd (for_list xs _ _)); simpl in *; lia.
Qed.

Lemma for_gen_inner (box : Box) (body : Editor' -> ivec3 -> Outcome)
    (editor : Editor') :
  for_gen (Box_inner box) body editor = for_list (Box_points box) body editor.
Proof.
  unfold for_gen. simpl.
  now destruct (for_list (Box_points box) body editor) as [ed [e|]].
Qed.

Lemma In_local_points (s p : ivec3) :
  In p (Box_points (Box_of_size s)) <->
  0 <= vx p < vx s /\ 0 <= vy p < vy s /\ 0 <= vz p < vz s.
Proof.
  rewrite In_Box_points. reflexivity.
Qed.

Lemma mod2_even (n : Z) : (n mod 2 =? 0) = Z.even n.
Proof.
  rewrite Zeven_mod. reflexivity.
Qed.

Lemma checkeredBlock_even (pos : ivec3) (block1 block2 : Block) :
  checkeredBlock pos block1 block2
  = if Z.even (vx pos + vy pos + vz pos) then block1 else block2.
Proof.
  unfold checkeredBlock, ivec3_sum. now rewrite mod2_even.
Qed.

(** Moving by a vector whose components sum to an even number keeps the
    checker phase: boxes placed apart by such a vector tile. *)
Lemma checkeredBlock_even_shift (pos v : ivec3) (block1 block2 : Block) :
  Z.even (ivec3_sum v) = true ->
  checkeredBlock (ivec3_add pos v) block1 block2
  = checkeredBlock pos block1 block2.
Proof.
  intros Hv. rewrite !checkeredBlock_even. simpl.
  replace (vx pos + vx v + (vy pos + vy v) + (vz pos + vz v))
    with (vx pos + vy pos + vz pos + ivec3_sum v) by (unfold ivec3_sum; lia).
  rewrite Z.even_add, Hv. now destruct (Z.even (vx pos + vy pos + vz pos)).
Qed.

Lemma placeCheckeredBox_loop (editor : Editor') (box : Box)
    (block1 block2 : Block) (replace : Replace) :
  placeCheckeredBox editor box block1 block2 replace
  = for_list (Box_points (Box_of_size (size box)))
      (fun ed pos =>
         Editor_receive ed
           (PlaceBlock (At (ivec3_add (offset box) pos))
              (if Z.even (vx pos + vy pos + vz pos) then block1 else block2)
              replace))
      editor.
Proof.
  unfold placeCheckeredBox. rewrite for_gen_inner. apply for_list_ext.
  intros ed pos _. unfold Editor_placeBlock. now rewrite checkeredBlock_even.
Qed.

(** C3.  [placeCheckeredBox] runs through the box-local positions (from 0
    on every axis, below the size) and asks, at [box.offset + pos], for
    [block1] when the sum of the components of [pos] is even and for
    [block2] otherwise.  The choice does not read [box.offset]: the box
    moved by any vector [v] (an even one or not) gets the same blocks at
    the same local positions. *)
Theorem placeCheckeredBox_local_parity (editor : Editor') (box : Box)
    (block1 block2 : Block) (replace : Replace) (v : ivec3) :
  let local := Box_points (Box_of_size (size box)) in
  let chosen pos :=
    if Z.even (vx pos + vy pos + vz pos) then block1 else block2 in
  let request origin pos :=
    PlaceBlock (Err := Err) (At (ivec3_add origin pos)) (chosen pos) replace in
  let moved := mk_Box (ivec3_add (offset box) v) (size box) in
  let out := placeCheckeredBox editor box block1 block2 replace in
  let out' := placeCheckeredBox editor moved block1 block2 replace in
  (forall pos, In pos local <->
     0 <= vx pos < vx (size box) /\ 0 <= vy pos < vy (size box)
     /\ 0 <= vz pos < vz (size box))
  /\ (exists n : nat,
        journal (fst out)
        = journal editor ++ map (request (offset box)) (firstn n local)
        /\ completed (snd out) n (List.length local))
  /\ (exists n : nat,
        journal (fst out')
        = journal editor
          ++ map (request (ivec3_add (offset box) v)) (firstn n local)
        /\ completed (snd out') n (List.length local)).
Proof.
  intros local chosen request moved out out'. split; [|split].
  - intros pos. apply In_local_points.
  - subst out. rewrite placeCheckeredBox_loop.
    apply (for_list_receive (request (offset box))).
  - subst out'. rewrite placeCheckeredBox_loop.
    apply (for_list_receive (request (ivec3_add (offset box) v))).
Qed.

Lemma stripedBlock_valid (pos : ivec3) (stripeAxis : Z)
    (block1 block2 : Block) :
  stripeAxis = 0 \/ stripeAxis = 1 \/ stripeAxis = 2 ->
  stripedBlock pos stripeAxis block1 block2
  = inr (if Z.even (if stripeAxis =? 0 then vx pos
                    else if stripeAxis =? 1 then vy pos else vz pos)
         then block1 else block2).
Proof.
  unfold stripedBlock, ivec3_getitem.
  intros [-> | [-> | ->]]; simpl; now rewrite mod2_even.
Qed.

(** C4.  With [stripeAxis] 0, 1 or 2, [placeStripedBox] runs through the
    box-local positions and asks, at [box.offset + pos], for [block1] when
    the coordinate of [pos] along [stripeAxis] is even and for [block2]
    otherwise.  One step along [stripeAxis] swaps the block; positions
    with the same coordinate along [stripeAxis] get the same block. *)
Theorem placeStripedBox_axis_parity (editor : Editor') (box : Box)
    (stripeAxis : Z) (block1 block2 : Block) (replace : Replace) :
  stripeAxis = 0 \/ stripeAxis = 1 \/ stripeAxis = 2 ->
  let local := Box_points (Box_of_size (size box)) in
  let coord pos :=
    if stripeAxis =? 0 then vx pos
    else if stripeAxis =? 1 then vy pos else vz pos in
  let chosen pos := if Z.even (coord pos) then block1 else block2 in
  let request pos :=
    PlaceBlock (Err := Err) (At (ivec3_add (offset box) pos)) (chosen pos)
               replace in
  let out := placeStripedBox editor box stripeAxis block1 block2 replace in
  (exists n : nat,
     journal (fst out) = journal editor ++ map request (firstn n local)
     /\ completed (snd out) n (List.length local))
  /\ (forall pos pos',
        coord pos' = coord pos + 1 ->
        (chosen pos = block1 /\ chosen pos' = block2)
        \/ (chosen pos = block2 /\ chosen pos' = block1))
  /\ (forall pos pos', coord pos' = coord pos -> chosen pos' = chosen pos).
Proof.
  intros Haxis local coord chosen request out. split; [|split].
  - subst out. unfold placeStripedBox. rewrite for_gen_inner.
    rewrite (for_list_ext _ _ (fun ed pos => Editor_receive ed (request pos))).
    + apply (for_list_receive request).
    + intros ed pos _. now rewrite stripedBlock_valid.
  - intros pos pos' Hstep. unfold chosen. rewrite Hstep.
    replace (coord pos + 1) with (Z.succ (coord pos)) by lia.
    rewrite Z.even_succ, <- Z.negb_even.
    destruct (Z.even (coord pos)); simpl; auto.
  - intros pos pos' Hsame. unfold chosen. now rewrite Hsame.
Qed.


(* ------------------------------------------------------------------ *)
(** ** Which functions transform, and what *)

(** C6.  [placeLineSequence] and [placeCylinder] hand the generator made
    from their own arguments to [placeBlock]: the points are those of
    [lineSequence3D points closed] and of [cylinder baseCenter ...], and an
    editor with another transform receives the same positions.
    [placeCuboid], [placeLine] and [placeFittingCylinder] call
    [placeBlockGlobal] on a generator made from the transformed key
    points. *)
Theorem placeLineSequence_placeCylinder_do_not_pretransform
    (editor : Editor') (t' : Transform) (points : list ivec3) (closed : bool)
    (baseCenter : ivec3) (diameters : Diameters) (length axis : Z)
    (tube hollow : bool) (first last corner1 corner2 : ivec3) (width : Z)
    (block : Block) (replace : Replace) :
  let editor' := mk_Editor t' (journal editor) in
  let t := Transform_mul (transform editor) in
  (journal (fst (placeLineSequence editor points block closed replace))
   = journal editor
     ++ [PlaceBlock (Each (lineSequence3D points closed)) block replace]
   /\ journal (fst (placeLineSequence editor' points block closed replace))
      = journal (fst (placeLineSequence editor points block closed replace)))
  /\ (journal (fst (placeCylinder editor baseCenter diameters length block axis
                                  tube hollow replace))
      = journal editor
        ++ [PlaceBlock (Each (cylinder baseCenter diameters length axis tube
                                       hollow)) block replace]
      /\ journal (fst (placeCylinder editor' baseCenter diameters length block
                                     axis tube hollow replace))
         = journal (fst (placeCylinder editor baseCenter diameters length block
                                       axis tube hollow replace)))
  /\ (exists block',
        journal (fst (placeCuboid editor first last block replace))
        = journal editor
          ++ [PlaceBlockGlobal
                (Each (Box_inner (Box_between (t first) (t last))))
                block' replace])
  /\ (exists block',
        journal (fst (placeLine editor first last block width replace))
        = journal editor
          ++ [PlaceBlockGlobal (Each (line3D (t first) (t last) width))
                               block' replace])
  /\ (exists block',
        journal (fst (placeFittingCylinder editor corner1 corner2 block axis
                                           tube hollow replace))
        = journal editor
          ++ [PlaceBlockGlobal
                (Each (fittingCylinder (t corner1) (t corner2) axis tube
                                       hollow))
                block' replace]).
Proof.
  intros editor' t. repeat split; try reflexivity; eexists; reflexivity.
Qed.

(** C10.  The block that reaches the editor: [placeLineSequence] and
    [placeCylinder] pass [block] itself to [placeBlock]; [placeCuboid],
    [placeCuboidHollow], [placeCuboidWireframe], [placeLine] and
    [placeFittingCylinder] pass
    [block.transformed(editor.transform.rotation, editor.transform.flip)]
    to [placeBlockGlobal]. *)
Theorem placeLineSequence_placeCylinder_pass_block_unmodified
    (editor : Editor') (points : list ivec3) (closed : bool)
    (baseCenter : ivec3) (diameters : Diameters) (length axis : Z)
    (tube hollow : bool) (first last corner1 corner2 : ivec3) (width : Z)
    (block : Block) (replace : Replace) :
  let block' := Block_transformed block (Transform_rotation (transform editor))
                                  (Transform_flip (transform editor)) in
  let received (out : Outcome) (c : Call') :=
    journal (fst out) = journal editor ++ [c] in
  (exists position,
     received (placeLineSequence editor points block closed replace)
              (PlaceBlock position block replace))
  /\ (exists position,
        received (placeCylinder editor baseCenter diameters length block axis
                                tube hollow replace)
                 (PlaceBlock position block replace))
  /\ (exists position,
        received (placeCuboid editor first last block replace)
                 (PlaceBlockGlobal position block' replace))
  /\ (exists position,
        received (placeCuboidHollow editor first last block replace)
                 (PlaceBlockGlobal position block' replace))
  /\ (exists position,
        received (placeCuboidWireframe editor first last block replace)
                 (PlaceBlockGlobal position block' replace))
  /\ (exists position,
        received (placeLine editor first last block width replace)
                 (PlaceBlockGlobal position block' replace))
  /\ (exists position,
        received (placeFittingCylinder editor corner1 corner2 block axis tube
                                       hollow replace)
                 (PlaceBlockGlobal position block' replace)).
Proof.
  intros block' received. unfold received.
  repeat split; eexists; reflexivity.
Qed.

(* ------------------------------------------------------------------ *)
(** ** Bounding boxes *)

Lemma fold_vmin_below (f : ivec3 -> Z) (rest : list ivec3) :
  (forall a q, f (vmin a q) = Z.min (f a) (f q)) ->
  forall acc q, In q (acc :: rest) -> f (fold_left vmin rest acc) <= f q.
Proof.
  intros Hf. induction rest as [|r rest IH]; intros acc q Hq; simpl in *.
  - destruct Hq as [<- | []]. lia.
  - destruct Hq as [<- | [<- | Hq]].
    + specialize (IH (vmin acc r) (vmin acc r) (or_introl eq_refl)).
      rewrite Hf in IH. lia.
    + specialize (IH (vmin acc r) (vmin acc r) (or_introl eq_refl)).
      rewrite Hf in IH. lia.
    + apply IH. now right.
Qed.

Lemma fold_vmin_attained (f : ivec3 -> Z) (rest : list ivec3) :
  (forall a q, f (vmin a q) = Z.min (f a) (f q)) ->
  forall acc, exists q, In q (acc :: rest) /\ f q = f (fold_left vmin rest acc).
Proof.
  intros Hf. induction rest as [|r rest IH]; intros acc; simpl.
  - exists acc. auto.
  - destruct (IH (vmin acc r)) as (q & [<- | Hq] & Heq).
    + rewrite Hf in Heq. destruct (Z.min_spec (f acc) (f r)) as [[_ Hm]|[_ Hm]].
      * exists acc. split; [now left|]. rewrite <- Heq. lia.
      * exists r. split; [right; now left|]. rewrite <- Heq. lia.
    + exists q. split; [right; now right|exact Heq].
Qed.

Lemma fold_vmax_above (f : ivec3 -> Z) (rest : list ivec3) :
  (forall a q, f (vmax a q) = Z.max (f a) (f q)) ->
  forall acc q, In q (acc :: rest) -> f q <= f (fold_left vmax rest acc).
Proof.
  intros Hf. induction rest as [|r rest IH]; intros acc q Hq; simpl in *.
  - destruct Hq as [<- | []]. lia.
  - destruct Hq as [<- | [<- | Hq]].
    + specialize (IH (vmax acc r) (vmax acc r) (or_introl eq_refl)).
      rewrite Hf in IH. lia.
    + specialize (IH (vmax acc r) (vmax acc r) (or_introl eq_refl)).
      rewrite Hf in IH. lia.
    + apply IH. now right.
Qed.

Lemma fold_vmax_attained (f : ivec3 -> Z) (rest : list ivec3) :
  (forall a q, f (vmax a q) = Z.max (f a) (f q)) ->
  forall acc, exists q, In q (acc :: rest) /\ f q = f (fold_left vmax rest acc).
Proof.
  intros Hf. induction rest as [|r rest IH]; intros acc; simpl.
  - exists acc. auto.
  - destruct (IH (vmax acc r)) as (q & [<- | Hq] & Heq).
    + rewrite Hf in Heq. destruct (Z.max_spec (f acc) (f r)) as [[_ Hm]|[_ Hm]].
      * exists r. split; [right; now left|]. rewrite <- Heq. lia.
      * exists acc. split; [now left|]. rewrite <- Heq. lia.
    + exists q. split; [right; now right|exact Heq].
Qed.

(** What a bounding box equal to [Box.between a b] says of the points:
    on each axis they lie between the corners and reach both. *)
Lemma boundingBox_between (ps : list ivec3) (a b : ivec3) (f : ivec3 -> Z) :
  f = vx \/ f = vy \/ f = vz ->
  boundingBox ps = Some (Box_between a b) ->
  (forall p, In p ps -> Z.min (f a) (f b) <= f p <= Z.max (f a) (f b))
  /\ (exists p, In p ps /\ f p = Z.min (f a) (f b))
  /\ (exists p, In p ps /\ f p = Z.max (f a) (f b)).
Proof.
  intros Hf Hbb. destruct ps as [|p0 rest]; [discriminate|].
  unfold boundingBox in Hbb.
  set (lo := fold_left vmin rest p0) in *.
  set (hi := fold_left vmax rest p0) in *.
  assert (Hmin : forall u q, f (vmin u q) = Z.min (f u) (f q))
    by (intros u q; destruct Hf as [-> | [-> | ->]]; reflexivity).
  assert (Hmax : forall u q, f (vmax u q) = Z.max (f u) (f q))
    by (intros u q; destruct Hf as [-> | [-> | ->]]; reflexivity).
  pose proof (fold_vmin_below f rest Hmin p0) as Hlo. fold lo in Hlo.
  pose proof (fold_vmax_above f rest Hmax p0) as Hhi. fold hi in Hhi.
  destruct (fold_vmin_attained f rest Hmin p0) as (qlo & Hqlo & Hqlo').
  destruct (fold_vmax_attained f rest Hmax p0) as (qhi & Hqhi & Hqhi').
  fold lo in Hqlo'. fold hi in Hqhi'.
  assert (Hle : f lo <= f hi)
    by (specialize (Hlo p0 (or_introl eq_refl));
        specialize (Hhi p0 (or_introl eq_refl)); lia).
  assert (Heq : f lo = Z.min (f a) (f b) /\ f hi = Z.max (f a) (f b)).
  { unfold Box_between in Hbb.
    injection Hbb as Hx1 Hy1 Hz1 Hx2 Hy2 Hz2.
    destruct Hf as [-> | [-> | ->]]; lia. }
  destruct Heq as [Heq1 Heq2]. split; [|split].
  - intros p Hp. specialize (Hlo p Hp). specialize (Hhi p Hp). lia.
  - exists qlo. split; [exact Hqlo|lia].
  - exists qhi. split; [exact Hqhi|lia].
Qed.








(* ------------------------------------------------------------------ *)
(** ** Line sequences *)

Lemma lineSequence3D_three_points (P0 P1 P2 : ivec3) :
  lineSequence3D [P0; P1; P2] true
  = PointGen_then (line3D P0 P1 1)
      (PointGen_then (line3D P1 P2 1)
         (PointGen_then (line3D P2 P0 1) (PointGen_of [])))
  /\ lineSequence3D [P0; P1; P2] false
     = PointGen_then (line3D P0 P1 1)
         (PointGen_then (line3D P1 P2 1) (PointGen_of [])).
Proof.
  split; reflexivity.
Qed.

Lemma PointGen_then_quiet (g1 g2 : PointGen Err) :
  raises g1 = None ->
  PointGen_then g1 g2 = mk_PointGen (yields g1 ++ yields g2) (raises g2).
Proof.
  intros Hquiet. unfold PointGen_then. now rewrite Hquiet.
Qed.

(** C8.  On the sequence [P0, P1, P2], with lines that do not raise,
    [placeLineSequence] hands to [placeBlock], unchanged block and filter,
    a generator whose points are exactly those of the lines P0 to P1, P1
    to P2 and, when [closed], P2 to P0; when not [closed], those of the
    first two lines only. *)
Theorem placeLineSequence_three_points (editor : Editor') (P0 P1 P2 : ivec3)
    (block : Block) (replace : Replace) :
  raises (line3D P0 P1 1) = None ->
  raises (line3D P1 P2 1) = None ->
  raises (line3D P2 P0 1) = None ->
  let on a b p := In p (yields (line3D a b 1)) in
  (exists g : PointGen Err,
     placeLineSequence editor [P0; P1; P2] block true replace
     = Editor_placeBlock editor (Each g) block replace
     /\ journal (fst (placeLineSequence editor [P0; P1; P2] block true replace))
        = journal editor ++ [PlaceBlock (Each g) block replace]
     /\ raises g = None
     /\ forall p, In p (yields g) <-> on P0 P1 p \/ on P1 P2 p \/ on P2 P0 p)
  /\ (exists g : PointGen Err,
        placeLineSequence editor [P0; P1; P2] block false replace
        = Editor_placeBlock editor (Each g) block replace
        /\ journal (fst (placeLineSequence editor [P0; P1; P2] block false
                                           replace))
           = journal editor ++ [PlaceBlock (Each g) block replace]
        /\ raises g = None
        /\ forall p, In p (yields g) <-> on P0 P1 p \/ on P1 P2 p).
Proof.
  intros H01 H12 H20 on.
  destruct (lineSequence3D_three_points P0 P1 P2) as [Hclosed Hopen].
  split.
  - exists (lineSequence3D [P0; P1; P2] true).
    split; [reflexivity|]. split; [reflexivity|].
    rewrite Hclosed, !PointGen_then_quiet by assumption. simpl.
    split; [reflexivity|]. intros p. unfold on.
    rewrite !in_app_iff. simpl. tauto.
  - exists (lineSequence3D [P0; P1; P2] false).
    split; [reflexivity|]. split; [reflexivity|].
    rewrite Hopen, !PointGen_then_quiet by assumption. simpl.
    split; [reflexivity|]. intros p. unfold on.
    rewrite !in_app_iff. simpl. tauto.
Qed.

(* ------------------------------------------------------------------ *)
(** ** Loops of placement calls *)

Lemma for_list_calls {A} (P : Call' -> Prop) (xs : list A)
    (body : Editor' -> A -> Outcome) :
  (forall editor a, exists cs,
      journal (fst (body editor a)) = journal editor ++ cs /\ Forall P cs) ->
  forall editor, exists cs,
    journal (fst (for_list xs body editor)) = journal editor ++ cs
    /\ Forall P cs.
Proof.
  intros Hbody. induction xs as [|a xs IH]; intros editor; simpl.
  - exists []. rewrite app_nil_r. auto.
  - destruct (Hbody editor a) as (cs & Hcs & HP).
    destruct (body editor a) as [editor' [e'|]]; simpl in *.
    + now exists cs.
    + destruct (IH editor') as (cs' & Hcs' & HP'). exists (cs ++ cs').
      rewrite Hcs', Hcs, app_assoc. split; [reflexivity|].
      apply Forall_app. auto.
Qed.

(** An exception that escapes a loop whose body either raises before its
    call or makes one call: it is the body's, or the editor's on the last
    call it received. *)
Lemma for_list_raised {A} (raised_early : Err -> Prop) (xs : list A)
    (body : Editor' -> A -> Outcome) :
  (forall ed a, In a xs ->
     (exists c, body ed a = Editor_receive ed c)
     \/ (exists e', body ed a = (ed, Some e') /\ raised_early e')) ->
  forall (t : Transform) (j0 cs0 : list Call') (e : Err),
    snd (for_list xs body (mk_Editor t (j0 ++ cs0))) = Some e ->
    raised_early e
    \/ (exists cs c,
          journal (fst (for_list xs body (mk_Editor t (j0 ++ cs0))))
          = j0 ++ cs ++ [c]
          /\ Editor_raises (mk_Editor t (j0 ++ cs)) c = Some e).
Proof.
  induction xs as [|a xs IH]; intros Hbody t j0 cs0 e; simpl.
  - discriminate.
  - destruct (Hbody (mk_Editor t (j0 ++ cs0)) a (or_introl eq_refl))
      as [(c & ->) | (e' & -> & Hearly)].
    + unfold Editor_receive at 1 2. cbn [transform journal].
      destruct (Editor_raises (mk_Editor t (j0 ++ cs0)) c) as [e'|] eqn:Hraise.
      * intros [= ->]. right. exists cs0, c. simpl.
        now rewrite <- app_assoc.
      * rewrite <- app_assoc. apply IH.
        intros ed a' Ha'. apply Hbody. now right.
    + intros [= ->]. now left.
Qed.

Lemma stripedBlock_raised (pos : ivec3) (stripeAxis : Z) (block1 block2 : Block)
    (e : Err) :
  stripedBlock pos stripeAxis block1 block2 = inl e ->
  ivec3_getitem pos stripeAxis = inl e.
Proof.
  unfold stripedBlock.
  destruct (ivec3_getitem pos stripeAxis) as [e'|c]; [|discriminate].
  now intros [= ->].
Qed.

End Properties.

(* ------------------------------------------------------------------ *)
(** ** Exceptions *)

Section Exceptions.

Context `{Raising}.

(** When the transform and the block do not raise, the layer is the one of
    the first part. *)
Lemma invoke_without_transform_errors (i : Invocation) (editor : Editor') :
  (forall v, Transform_mul_raises (transform editor) v = None) ->
  (forall block,
     Block_transformed_raises block (Transform_rotation (transform editor))
                              (Transform_flip (transform editor)) = None) ->
  WithExceptions.invoke i editor = invoke i editor.
Proof.
  intros Hmul Hblock.
  destruct i; simpl; try reflexivity;
    unfold WithExceptions.placeRect, WithExceptions.placeRectOutline,
      WithExceptions.placeBox, WithExceptions.placeBoxHollow,
      WithExceptions.placeBoxWireframe, WithExceptions.placeCuboid,
      WithExceptions.placeCuboidHollow, WithExceptions.placeCuboidWireframe,
      WithExceptions.placeLine, WithExceptions.placeFittingCylinder,
      placeRect, placeRectOutline, placeBox,
      placeBoxHollow, placeBoxWireframe,
      WithExceptions.transform_mul, WithExceptions.transformed;
    rewrite ?Hmul, ?Hblock; reflexivity.
Qed.

Section Keyed.

(** The shape of the functions that transform two points and a block and
    then make one call. *)
Variables (editor : Editor') (p1 p2 : ivec3) (block : Block)
          (call : ivec3 -> ivec3 -> Block -> Call').

Let run : Outcome :=
  WithExceptions.assign editor (WithExceptions.transform_mul editor p1)
    (fun a =>
       WithExceptions.assign editor (WithExceptions.transform_mul editor p2)
         (fun b =>
            WithExceptions.assign editor
              (WithExceptions.transformed editor block)
              (fun block' => Editor_receive editor (call a b block')))).

Lemma keyed_raised (i : Invocation) (e : Err) :
  WithExceptions.corners_of i = [p1; p2] ->
  WithExceptions.turned_of i = Some block ->
  snd run = Some e -> WithExceptions.raised_by i editor e run.
Proof.
  intros Hcorners Hturned.
  unfold WithExceptions.raised_by, run, WithExceptions.assign,
    WithExceptions.transform_mul, WithExceptions.transformed.
  rewrite Hcorners, Hturned.
  destruct (Transform_mul_raises (transform editor) p1) as [e1|] eqn:H1.
  { intros [= ->]. left. exists p1. simpl. auto. }
  destruct (Transform_mul_raises (transform editor) p2) as [e2|] eqn:H2.
  { intros [= ->]. left. exists p2. simpl. auto. }
  destruct (Block_transformed_raises block _ _) as [e3|] eqn:H3.
  { intros [= ->]. right. left. exists block. auto. }
  simpl. intros Hraise. right. right. right. eexists [], _.
  split; [reflexivity|]. rewrite app_nil_r. destruct editor. exact Hraise.
Qed.

Lemma keyed_calls : WithExceptions.one_call_unless_raised editor run.
Proof.
  unfold WithExceptions.one_call_unless_raised, run, WithExceptions.assign,
    WithExceptions.transform_mul, WithExceptions.transformed.
  destruct (Transform_mul_raises (transform editor) p1);
    [left; split; [reflexivity|discriminate]|].
  destruct (Transform_mul_raises (transform editor) p2);
    [left; split; [reflexivity|discriminate]|].
  destruct (Block_transformed_raises block _ _);
    [left; split; [reflexivity|discriminate]|].
  right. eexists. split; reflexivity.
Qed.

End Keyed.

Lemma one_call_raised (i : Invocation) (editor : Editor') (c : Call')
    (e : Err) :
  snd (Editor_receive editor c) = Some e ->
  WithExceptions.raised_by i editor e (Editor_receive editor c).
Proof.
  simpl. intros Hraise. right. right. right. exists [], c.
  split; [reflexivity|]. rewrite app_nil_r. destruct editor. exact Hraise.
Qed.

Lemma checkered_loop_raised (i : Invocation) (editor : Editor') (box : Box)
    (block1 block2 : Block) (replace : Replace) (e : Err) :
  snd (placeCheckeredBox editor box block1 block2 replace) = Some e ->
  WithExceptions.raised_by i editor e
    (placeCheckeredBox editor box block1 block2 replace).
Proof.
  unfold placeCheckeredBox. rewrite for_gen_inner.
  destruct editor as [t j]. intros Hraise.
  pose proof (for_list_raised (fun _ => False)
                (Box_points (Box_of_size (size box)))
                (fun ed pos =>
                   Editor_placeBlock ed (At (ivec3_add (offset box) pos))
                     (checkeredBlock pos block1 block2) replace)) as Hloop.
  specialize (Hloop) with (t := t) (j0 := j) (cs0 := []) (e := e).
  rewrite app_nil_r in Hloop.
  destruct Hloop as [[] | (cs & c & Hjournal & Hcall)].
  - intros ed pos _. left. eexists. reflexivity.
  - exact Hraise.
  - right. right. right. exists cs, c. auto.
Qed.

Lemma striped_loop_raised (i : Invocation) (editor : Editor') (box : Box)
    (stripeAxis : Z) (block1 block2 : Block) (replace : Replace) (e : Err) :
  WithExceptions.indexed_of i
  = (Box_points (Box_of_size (size box)), stripeAxis) ->
  snd (placeStripedBox editor box stripeAxis block1 block2 replace) = Some e ->
  WithExceptions.raised_by i editor e
    (placeStripedBox editor box stripeAxis block1 block2 replace).
Proof.
  intros Hindexed. unfold placeStripedBox. rewrite for_gen_inner.
  destruct editor as [t j]. intros Hraise.
  pose proof (for_list_raised
                (fun e => exists pos,
                     In pos (Box_points (Box_of_size (size box)))
                     /\ ivec3_getitem pos stripeAxis = inl e)
                (Box_points (Box_of_size (size box)))
                (fun ed pos =>
                   match stripedBlock pos stripeAxis block1 block2 with
                   | inl e => (ed, Some e)
                   | inr block =>
                       Editor_placeBlock ed (At (ivec3_add (offset box) pos))
                                         block replace
                   end)) as Hloop.
  specialize (Hloop) with (t := t) (j0 := j) (cs0 := []) (e := e).
  rewrite app_nil_r in Hloop.
  destruct Hloop as [(pos & Hpos & Hindex) | (cs & c & Hjournal & Hcall)].
  - intros ed pos Hpos.
    destruct (stripedBlock pos stripeAxis block1 block2) as [e'|b] eqn:Hblock.
    + right. exists e'. split; [reflexivity|]. exists pos.
      split; [exact Hpos|]. now apply stripedBlock_raised in Hblock.
    + left. eexists. reflexivity.
  - exact Hraise.
  - right. right. left. exists pos. rewrite Hindexed. auto.
  - right. right. right. exists cs, c. auto.
Qed.

Lemma checkered_loop_calls (editor : Editor') (box : Box)
    (block1 block2 : Block) (replace : Replace) :
  WithExceptions.checkered_calls editor box block1 block2 replace
    (placeCheckeredBox editor box block1 block2 replace).
Proof.
  unfold WithExceptions.checkered_calls, placeCheckeredBox.
  rewrite for_gen_inner.
  apply (for_list_receive
           (fun pos => PlaceBlock (At (ivec3_add (offset box) pos))
                         (checkeredBlock pos block1 block2) replace)).
Qed.

Lemma striped_loop_calls (editor : Editor') (box : Box) (stripeAxis : Z)
    (block1 block2 : Block) (replace : Replace) :
  WithExceptions.striped_calls editor box stripeAxis block1 block2 replace
    (placeStripedBox editor box stripeAxis block1 block2 replace).
Proof.
  unfold WithExceptions.striped_calls, placeStripedBox. rewrite for_gen_inner.
  unfold Editor_placeBlock, Editor_receive.
  generalize (Box_points (Box_of_size (size box))) as xs. intros xs.
  revert editor. induction xs as [|pos xs IH]; intros editor; simpl.
  - exists 0%nat, []. simpl. rewrite app_nil_r. auto.
  - destruct (stripedBlock pos stripeAxis block1 block2) as [e|b] eqn:Hblock.
    + exists 0%nat, []. simpl. rewrite app_nil_r.
      split; [reflexivity|]. split; [constructor|lia].
    + destruct (Editor_raises editor _) as [e|] eqn:Hraise.
      * exists 1%nat. eexists [_]. simpl. split; [reflexivity|].
        split; [|lia]. constructor; [|constructor]. eauto.
      * destruct (IH (mk_Editor (transform editor)
                        (journal editor
                         ++ [PlaceBlock (At (ivec3_add (offset box) pos)) b
                                        replace])))
          as (n & cs & Hjournal & Hcalls & Hdone).
        exists (S n),
          (PlaceBlock (At (ivec3_add (offset box) pos)) b replace :: cs).
        split; [|split].
        -- etransitivity; [exact Hjournal|].
           simpl. rewrite <- app_assoc. reflexivity.
        -- simpl. constructor; eauto.
        -- simpl in *.
           destruct (snd (for_list xs _ _)); simpl in *; lia.
Qed.

(** C5, amended.  Whatever the arguments, an exception that escapes a
    function of the layer was raised by a collaborator in an operation of
    that very call, and escapes unchanged: the transform applied to one of
    its corners or the block re-oriented, before any placement; the vector
    indexed by [stripeAxis] at one of its local positions; or the editor on
    the last placement call it received.  The zero-size guard is the only
    test by which the layer itself skips its placement call: the corner,
    line and cylinder functions make their one call unless the transform
    or the block raised first, and the box and rectangle functions do so
    unless a size component is zero.  The pattern functions make one call
    per local position of the box, in order, until an exception escapes,
    each with the block the parity test chooses. *)
Theorem exceptions_come_from_collaborators (i : Invocation)
    (editor : Editor') :
  let out := WithExceptions.invoke i editor in
  (forall e, snd out = Some e -> WithExceptions.raised_by i editor e out)
  /\ WithExceptions.calls_made i editor out.
Proof.
  intros out. subst out. split.
  - intros e.
    destruct i; simpl;
      unfold WithExceptions.placeRect, WithExceptions.placeRectOutline,
        WithExceptions.placeBox, WithExceptions.placeBoxHollow,
        WithExceptions.placeBoxWireframe, placeCheckeredCuboid,
        placeStripedCuboid;
      try (apply keyed_raised; reflexivity);
      try (apply one_call_raised);
      try (apply checkered_loop_raised);
      try (apply striped_loop_raised; reflexivity);
      match goal with
      | |- context [size_has_zero ?b] =>
          let Hguard := fresh "Hguard" in
          destruct (size_has_zero b) eqn:Hguard;
          [discriminate
          |apply keyed_raised; simpl; rewrite Hguard; reflexivity]
      end.
  - destruct i; simpl;
      unfold WithExceptions.placeRect, WithExceptions.placeRectOutline,
        WithExceptions.placeBox, WithExceptions.placeBoxHollow,
        WithExceptions.placeBoxWireframe, placeCheckeredCuboid,
        placeStripedCuboid;
      try (apply keyed_calls);
      try (apply checkered_loop_calls);
      try (apply striped_loop_calls);
      try (eexists; split; reflexivity);
      match goal with
      | |- context [size_has_zero ?b] =>
          destruct (size_has_zero b); [reflexivity|apply keyed_calls]
      end.
Qed.

End Exceptions.

(* ------------------------------------------------------------------ *)
(** ** Boxes and cuboids: what reaches the editor *)

Section Coverage.

Context `{Collaborators}.

Lemma for_list_quiet {A} (request : A -> Call') (xs : list A) :
  (forall ed a, In a xs -> Editor_raises ed (request a) = None) ->
  forall editor : Editor',
    for_list xs (fun ed a => Editor_receive ed (request a)) editor
    = (mk_Editor (transform editor) (journal editor ++ map request xs), None).
Proof.
  induction xs as [|a xs IH]; intros Hquiet editor; simpl.
  - destruct editor as [t j]. simpl. now rewrite app_nil_r.
  - unfold Editor_receive at 1. rewrite (Hquiet editor a) by now left.
    rewrite IH by (intros ed a' Ha'; apply Hquiet; now right).
    simpl. now rewrite <- app_assoc.
Qed.

Lemma for_list_stops {A} (body : Editor' -> A -> Outcome) (pre post : list A)
    (a : A) (editor before after : Editor') (e : Err) :
  for_list pre body editor = (before, None) ->
  body before a = (after, Some e) ->
  for_list (pre ++ a :: post) body editor = (after, Some e).
Proof.
  revert editor. induction pre as [|a' pre IH]; intros editor Hpre Hraise.
  - simpl in *. injection Hpre as <-. now rewrite Hraise.
  - simpl in *. destruct (body editor a') as [editor' [e'|]].
    + discriminate.
    + now apply IH.
Qed.

Lemma placeBox_on_fixed_corners (editor : Editor') (box : Box) (block : Block)
    (replace : Replace) :
  vx (size box) <> 0 -> vy (size box) <> 0 -> vz (size box) <> 0 ->
  Transform_mul (transform editor) (Box_begin box) = Box_begin box ->
  Transform_mul (transform editor) (ivec3_sub_int (Box_end box) 1)
  = ivec3_sub_int (Box_end box) 1 ->
  let block' := Block_transformed block (Transform_rotation (transform editor))
                                  (Transform_flip (transform editor)) in
  let region := Box_between (Box_begin box) (ivec3_sub_int (Box_end box) 1) in
  placeBox editor box block replace
  = Editor_placeBlockGlobal editor (Each (Box_inner region)) block' replace
  /\ placeBoxHollow editor box block replace
     = Editor_placeBlockGlobal editor (Each (Box_shell region)) block' replace
  /\ placeBoxWireframe editor box block replace
     = Editor_placeBlockGlobal editor (Each (Box_wireframe region)) block'
                               replace.
Proof.
  intros Hx Hy Hz Hfirst Hlast block' region.
  assert (Hguard : size_has_zero box = false)
    by (apply size_has_zero_false; auto).
  unfold placeBox, placeBoxHollow, placeBoxWireframe, placeCuboid,
    placeCuboidHollow, placeCuboidWireframe.
  rewrite Hguard, Hfirst, Hlast. auto.
Qed.

Lemma Box_last_int32 (box : Box) :
  0 < vx (size box) -> 0 < vy (size box) -> 0 < vz (size box) ->
  Box_int32 box -> ivec3_int32 (ivec3_sub_int (Box_end box) 1).
Proof.
  unfold Box_int32, ivec3_int32, int32, Box_end. simpl. lia.
Qed.

Lemma local_position_int32 (box : Box) (pos : ivec3) :
  Box_int32 box -> In pos (Box_points (Box_of_size (size box))) ->
  ivec3_int32 (ivec3_add (offset box) pos).
Proof.
  rewrite In_Box_points.
  unfold Box_int32, ivec3_int32, int32, Box_end, Box_begin. simpl. lia.
Qed.

(** X1.  A box of positive size whose offset, size and end are in the
    32-bit range, under a transform that leaves its first and last point
    where they are: [box.end] and [box.end - 1] are computed without
    wrapping, and [placeBox], [placeBoxHollow] and [placeBoxWireframe]
    hand to [placeBlockGlobal] the points, the shell and the wireframe of
    the box itself. *)
Theorem placeBox_places_the_box (editor : Editor') (box : Box) (block : Block)
    (replace : Replace) :
  0 < vx (size box) -> 0 < vy (size box) -> 0 < vz (size box) ->
  Box_int32 box ->
  Transform_mul (transform editor) (Box_begin box) = Box_begin box ->
  Transform_mul (transform editor) (ivec3_sub_int (Box_end box) 1)
  = ivec3_sub_int (Box_end box) 1 ->
  let block' := Block_transformed block (Transform_rotation (transform editor))
                                  (Transform_flip (transform editor)) in
  placeBox editor box block replace
  = Editor_placeBlockGlobal editor (Each (Box_inner box)) block' replace
  /\ placeBoxHollow editor box block replace
     = Editor_placeBlockGlobal editor (Each (Box_shell box)) block' replace
  /\ placeBoxWireframe editor box block replace
     = Editor_placeBlockGlobal editor (Each (Box_wireframe box)) block' replace
  /\ ivec3_wrap (Box_end box) = Box_end box
  /\ ivec3_wrap (ivec3_sub_int (Box_end box) 1) = ivec3_sub_int (Box_end box) 1.
Proof.
  intros Hx Hy Hz Hrange Hfirst Hlast block'.
  destruct (placeBox_on_fixed_corners editor box block replace)
    as (Hbox & Hhollow & Hwire); try assumption; try lia.
  rewrite Box_between_begin_last in Hbox, Hhollow, Hwire by assumption.
  repeat (split; [assumption|]).
  split; apply ivec3_wrap_int32.
  - apply Hrange.
  - now apply Box_last_int32.
Qed.

(** X2.  A box without a zero size component, under a transform that
    leaves [box.begin] and [box.end - 1] where they are, with the box,
    [box.end - 1] and the box between [box.begin] and [box.end - 1] in the
    32-bit range: on an axis of positive size [s] from offset [o],
    [placeBox] places the cells from [o] to [o + s - 1]; on an axis of
    negative size it places those from [o + s - 1] to [o], two more than
    the size says.  Every cell is in the 32-bit range. *)
Theorem placeBox_span_per_axis (editor : Editor') (box : Box) (block : Block)
    (replace : Replace) :
  vx (size box) <> 0 -> vy (size box) <> 0 -> vz (size box) <> 0 ->
  Box_int32 box ->
  ivec3_int32 (ivec3_sub_int (Box_end box) 1) ->
  Box_int32 (Box_between (Box_begin box) (ivec3_sub_int (Box_end box) 1)) ->
  Transform_mul (transform editor) (Box_begin box) = Box_begin box ->
  Transform_mul (transform editor) (ivec3_sub_int (Box_end box) 1)
  = ivec3_sub_int (Box_end box) 1 ->
  let block' := Block_transformed block (Transform_rotation (transform editor))
                                  (Transform_flip (transform editor)) in
  let span o s v := if 0 <? s then o <= v < o + s else o + s - 1 <= v <= o in
  exists g : PointGen Err,
    placeBox editor box block replace
    = Editor_placeBlockGlobal editor (Each g) block' replace
    /\ raises g = None
    /\ (forall p,
          In p (yields g) <->
          span (vx (offset box)) (vx (size box)) (vx p)
          /\ span (vy (offset box)) (vy (size box)) (vy p)
          /\ span (vz (offset box)) (vz (size box)) (vz p))
    /\ (forall p, In p (yields g) -> ivec3_int32 p).
Proof.
  intros Hx Hy Hz Hbox Hlast32 Hregion Hfirst Hlast block' span.
  exists (Box_inner (Box_between (Box_begin box)
                                 (ivec3_sub_int (Box_end box) 1))).
  split; [|split; [reflexivity|split]].
  - now apply placeBox_on_fixed_corners.
  - intros p. simpl. rewrite In_Box_between. unfold span, Box_begin, Box_end.
    simpl.
    destruct (Z.ltb_spec 0 (vx (size box))), (Z.ltb_spec 0 (vy (size box))),
      (Z.ltb_spec 0 (vz (size box))); lia.
  - intros p. simpl. rewrite In_Box_points.
    revert Hregion. generalize (Box_between (Box_begin box)
                                  (ivec3_sub_int (Box_end box) 1)).
    intros region.
    unfold Box_int32, ivec3_int32, int32, Box_end, Box_begin. simpl. lia.
Qed.

(** X3.  The number of points [placeCuboid] hands over is the product, over
    the axes, of the distance between the transformed corners plus one. *)
Theorem placeCuboid_point_count (editor : Editor') (first last : ivec3)
    (block : Block) (replace : Replace) :
  let a := Transform_mul (transform editor) first in
  let b := Transform_mul (transform editor) last in
  let block' := Block_transformed block (Transform_rotation (transform editor))
                                  (Transform_flip (transform editor)) in
  exists g : PointGen Err,
    placeCuboid editor first last block replace
    = Editor_placeBlockGlobal editor (Each g) block' replace
    /\ Z.of_nat (List.length (yields g))
       = (Z.abs (vx b - vx a) + 1) * (Z.abs (vy b - vy a) + 1)
         * (Z.abs (vz b - vz a) + 1).
Proof.
  intros a b block'. exists (Box_inner (Box_between a b)).
  split; [reflexivity|]. simpl. rewrite length_Box_points. simpl.
  rewrite !Nat2Z.inj_mul, !Z2Nat.id by lia. ring.
Qed.

Lemma Box_points_single (a : ivec3) : Box_points (Box_between a a) = [a].
Proof.
  destruct a as [x y z]. unfold Box_points, Box_between, Box_begin, Box_end.
  simpl. rewrite !Z.sub_diag, !Z.min_id. simpl.
  rewrite (range_cons x), (range_cons y), (range_cons z) by lia.
  rewrite !range_empty by lia. reflexivity.
Qed.

(** X4.  A cuboid whose corners coincide is not special-cased: the one
    transformed point is placed. *)
Theorem placeCuboid_single_point (editor : Editor') (corner : ivec3)
    (block : Block) (replace : Replace) :
  placeCuboid editor corner corner block replace
  = Editor_placeBlockGlobal editor
      (Each (PointGen_of [Transform_mul (transform editor) corner]))
      (Block_transformed block (Transform_rotation (transform editor))
                         (Transform_flip (transform editor)))
      replace.
Proof.
  unfold placeCuboid, Box_inner. now rewrite Box_points_single.
Qed.

(** X5.  [placeCuboidHollow] and [placeCuboidWireframe] do not depend on
    the order of the corners, and what they place is part of what
    [placeCuboid] places on the same corners: every wireframe point is a
    shell point and every shell point a point of the cuboid. *)
Theorem placeCuboidHollow_Wireframe_any_order (editor : Editor')
    (first last : ivec3) (block : Block) (replace : Replace) :
  let block' := Block_transformed block (Transform_rotation (transform editor))
                                  (Transform_flip (transform editor)) in
  placeCuboidHollow editor last first block replace
  = placeCuboidHollow editor first last block replace
  /\ placeCuboidWireframe editor last first block replace
     = placeCuboidWireframe editor first last block replace
  /\ exists full shell wire : PointGen Err,
       placeCuboid editor first last block replace
       = Editor_placeBlockGlobal editor (Each full) block' replace
       /\ placeCuboidHollow editor first last block replace
          = Editor_placeBlockGlobal editor (Each shell) block' replace
       /\ placeCuboidWireframe editor first last block replace
          = Editor_placeBlockGlobal editor (Each wire) block' replace
       /\ (forall p, In p (yields wire) -> In p (yields shell))
       /\ (forall p, In p (yields shell) -> In p (yields full)).
Proof.
  intros block'. split; [|split].
  - unfold placeCuboidHollow. now rewrite Box_between_comm.
  - unfold placeCuboidWireframe. now rewrite Box_between_comm.
  - eexists _, _, _. split; [reflexivity|]. split; [reflexivity|].
    split; [reflexivity|].
    unfold Box_wireframe, Box_shell, Box_inner, PointGen_of. cbn [yields].
    split; intros p; rewrite !filter_In.
    + intros (Hin & Hfaces). split; [exact Hin|].
      apply Nat.leb_le in Hfaces. apply Nat.leb_le. lia.
    + tauto.
Qed.

(* ------------------------------------------------------------------ *)
(** ** Rectangles *)

Lemma Rect_toBox_guard (rect : Rect) (y : Z) :
  size_has_zero (Rect_toBox rect y 1)
  = (ux (rect_size rect) =? 0) || (uy (rect_size rect) =? 0).
Proof.
  unfold size_has_zero. simpl. now rewrite orb_false_r.
Qed.

(** X6.  [placeRect] and [placeRectOutline] do nothing exactly when the
    rectangle has a zero size component; the height [y] plays no part. *)
Theorem placeRect_noop_iff_empty (editor : Editor') (rect : Rect) (y : Z)
    (block : Block) (replace : Replace) :
  (placeRect editor rect y block replace = (editor, None)
   <-> ux (rect_size rect) = 0 \/ uy (rect_size rect) = 0)
  /\ (placeRectOutline editor rect y block replace = (editor, None)
      <-> ux (rect_size rect) = 0 \/ uy (rect_size rect) = 0).
Proof.
  unfold placeRect, placeRectOutline, placeBox, placeBoxWireframe.
  rewrite Rect_toBox_guard.
  destruct (Z.eqb_spec (ux (rect_size rect)) 0) as [Hx|Hx]; simpl.
  - split; split; auto.
  - destruct (Z.eqb_spec (uy (rect_size rect)) 0) as [Hy|Hy].
    + split; split; auto.
    + assert (Hgrow : forall out : Outcome,
                journal (fst out) <> journal editor -> out <> (editor, None)).
      { intros out Hneq Heq. apply Hneq. now rewrite Heq. }
      split; split; try (intros [?|?]; contradiction);
        intros Heq; exfalso; revert Heq; apply Hgrow; simpl;
        apply journal_grows.
Qed.

(** X7.  A rectangle of positive size, under a transform that leaves its
    two corners at height [y] where they are, with the box of the
    rectangle at height [y] in the 32-bit range: [placeRect] places
    exactly the cells at height [y] whose other two coordinates lie in the
    rectangle, and each of them is in the 32-bit range. *)
Theorem placeRect_cells (editor : Editor') (rect : Rect) (y : Z)
    (block : Block) (replace : Replace) :
  let ox := ux (rect_offset rect) in
  let oz := uy (rect_offset rect) in
  let sx := ux (rect_size rect) in
  let sz := uy (rect_size rect) in
  let first := mk_ivec3 ox y oz in
  let last := mk_ivec3 (ox + sx - 1) y (oz + sz - 1) in
  let block' := Block_transformed block (Transform_rotation (transform editor))
                                  (Transform_flip (transform editor)) in
  0 < sx -> 0 < sz ->
  Box_int32 (Rect_toBox rect y 1) ->
  Transform_mul (transform editor) first = first ->
  Transform_mul (transform editor) last = last ->
  exists area : PointGen Err,
    placeRect editor rect y block replace
    = Editor_placeBlockGlobal editor (Each area) block' replace
    /\ raises area = None
    /\ (forall p, In p (yields area) <->
          vy p = y /\ ox <= vx p < ox + sx /\ oz <= vz p < oz + sz)
    /\ (forall p, In p (yields area) -> ivec3_int32 p).
Proof.
  intros ox oz sx sz first last block' Hsx Hsz Hrange Hfirst Hlast.
  set (box := Rect_toBox rect y 1) in *.
  assert (Hbegin : Box_begin box = first) by reflexivity.
  assert (Hend : ivec3_sub_int (Box_end box) 1 = last).
  { unfold box, last, Box_end, Rect_toBox, ivec3_sub_int. simpl.
    f_equal; lia. }
  rewrite <- Hbegin in Hfirst. rewrite <- Hend in Hlast.
  destruct (placeBox_on_fixed_corners editor box block replace)
    as (Harea & _ & _); try assumption; try (simpl; lia).
  rewrite Box_between_begin_last in Harea by (simpl; lia).
  exists (Box_inner box).
  split; [exact Harea|]. split; [reflexivity|].
  assert (Hin : forall p, In p (Box_points box) <->
            vy p = y /\ ox <= vx p < ox + sx /\ oz <= vz p < oz + sz).
  { intros p. rewrite In_Box_points. unfold box, Box_begin, Box_end. simpl.
    fold ox oz sx sz. lia. }
  split; [exact Hin|].
  intros p. simpl. rewrite Hin. revert Hrange.
  unfold Box_int32, ivec3_int32, int32, box, Box_end. simpl.
  fold ox oz sx sz. lia.
Qed.

(* ------------------------------------------------------------------ *)
(** ** Patterns *)

Lemma local_sum (o pos : ivec3) :
  ivec3_sum (ivec3_sub (ivec3_add o pos) o) = vx pos + vy pos + vz pos.
Proof.
  unfold ivec3_sum, ivec3_sub, ivec3_add. simpl. lia.
Qed.

Lemma Z_of_nat_Box_points (b : Box) :
  Z.of_nat (List.length (Box_points b))
  = Z.max 0 (vx (size b)) * Z.max 0 (vy (size b)) * Z.max 0 (vz (size b)).
Proof.
  rewrite length_Box_points, !Nat2Z.inj_mul.
  replace (Z.of_nat (Z.to_nat (vx (size b)))) with (Z.max 0 (vx (size b)))
    by lia.
  replace (Z.of_nat (Z.to_nat (vy (size b)))) with (Z.max 0 (vy (size b)))
    by lia.
  replace (Z.of_nat (Z.to_nat (vz (size b)))) with (Z.max 0 (vz (size b)))
    by lia.
  ring.
Qed.

Lemma placeCheckeredBox_quiet (editor : Editor') (box : Box)
    (block1 block2 : Block) (replace : Replace) :
  let chosen q :=
    if Z.even (ivec3_sum (ivec3_sub q (offset box))) then block1 else block2 in
  let request q := PlaceBlock (Err := Err) (At q) (chosen q) replace in
  (forall ed q, In q (Box_points box) -> Editor_raises ed (request q) = None) ->
  placeCheckeredBox editor box block1 block2 replace
  = (mk_Editor (transform editor)
               (journal editor ++ map request (Box_points box)), None).
Proof.
  intros chosen request Hquiet.
  rewrite placeCheckeredBox_loop, (Box_points_offset box), map_map.
  assert (Hreq : forall pos,
            PlaceBlock (At (ivec3_add (offset box) pos))
              (if Z.even (vx pos + vy pos + vz pos) then block1 else block2)
              replace
            = request (ivec3_add (offset box) pos)).
  { intros pos. unfold request, chosen. now rewrite local_sum. }
  rewrite (for_list_ext _ _
             (fun ed pos =>
                Editor_receive ed (request (ivec3_add (offset box) pos))))
    by (intros ed pos _; now rewrite Hreq).
  apply (for_list_quiet (fun pos => request (ivec3_add (offset box) pos))).
  intros ed pos Hpos. apply Hquiet.
  rewrite (Box_points_offset box). now apply in_map.
Qed.

(** X8.  On a box whose offset, size and end are in the 32-bit range, when
    the editor raises on none of the calls, [placeCheckeredBox] returns
    normally after one [placeBlock] call per cell of the box, in the order
    of [Box.inner]: at cell [q] it asks for [block1] when the components
    of [q - box.offset] sum to an even number and for [block2] otherwise,
    with the positions and the blocks as given, whatever the editor's
    transform.  A box with a non-positive size has no cell, and no
    position [box.offset + pos] wraps. *)
Theorem placeCheckeredBox_every_cell (editor : Editor') (box : Box)
    (block1 block2 : Block) (replace : Replace) :
  let chosen q :=
    if Z.even (ivec3_sum (ivec3_sub q (offset box))) then block1 else block2 in
  let request q := PlaceBlock (Err := Err) (At q) (chosen q) replace in
  Box_int32 box ->
  (forall ed q, In q (Box_points box) -> Editor_raises ed (request q) = None) ->
  placeCheckeredBox editor box block1 block2 replace
  = (mk_Editor (transform editor)
               (journal editor ++ map request (Box_points box)), None)
  /\ Z.of_nat (List.length (map request (Box_points box)))
     = Z.max 0 (vx (size box)) * Z.max 0 (vy (size box))
       * Z.max 0 (vz (size box))
  /\ (forall pos, In pos (Box_points (Box_of_size (size box))) ->
        ivec3_wrap (ivec3_add (offset box) pos) = ivec3_add (offset box) pos).
Proof.
  intros chosen request Hrange Hquiet. split; [|split].
  - now apply placeCheckeredBox_quiet.
  - rewrite length_map. apply Z_of_nat_Box_points.
  - intros pos Hpos. apply ivec3_wrap_int32.
    now apply local_position_int32.
Qed.

Lemma local_coord (stripeAxis : Z) (o pos : ivec3) :
  let coord (v : ivec3) :=
    if stripeAxis =? 0 then vx v
    else if stripeAxis =? 1 then vy v else vz v in
  coord (ivec3_add o pos) - coord o = coord pos.
Proof.
  simpl. destruct (stripeAxis =? 0), (stripeAxis =? 1); simpl; lia.
Qed.

Lemma placeStripedBox_quiet (editor : Editor') (box : Box)
    (stripeAxis : Z) (block1 block2 : Block) (replace : Replace) :
  let coord (v : ivec3) :=
    if stripeAxis =? 0 then vx v
    else if stripeAxis =? 1 then vy v else vz v in
  let chosen q :=
    if Z.even (coord q - coord (offset box)) then block1 else block2 in
  let request q := PlaceBlock (Err := Err) (At q) (chosen q) replace in
  stripeAxis = 0 \/ stripeAxis = 1 \/ stripeAxis = 2 ->
  (forall ed q, In q (Box_points box) -> Editor_raises ed (request q) = None) ->
  placeStripedBox editor box stripeAxis block1 block2 replace
  = (mk_Editor (transform editor)
               (journal editor ++ map request (Box_points box)), None).
Proof.
  intros coord chosen request Haxis Hquiet.
  unfold placeStripedBox.
  rewrite for_gen_inner, (Box_points_offset box), map_map.
  rewrite (for_list_ext _ _
             (fun ed pos =>
                Editor_receive ed (request (ivec3_add (offset box) pos)))).
  - apply (for_list_quiet (fun pos => request (ivec3_add (offset box) pos))).
    intros ed pos Hpos. apply Hquiet.
    rewrite (Box_points_offset box). now apply in_map.
  - intros ed pos _. rewrite stripedBlock_valid by exact Haxis.
    unfold Editor_placeBlock, request, chosen, coord.
    now rewrite (local_coord stripeAxis).
Qed.

(** X9.  On a box whose offset, size and end are in the 32-bit range, with
    [stripeAxis] 0, 1 or 2 and an editor that raises on none of the calls,
    [placeStripedBox] returns normally after one [placeBlock] call per
    cell of the box: at cell [q] it asks for [block1] when [q] is an even
    number of steps from [box.offset] along [stripeAxis] and for [block2]
    otherwise; the cells of the layer through [box.offset] across the
    axis all get [block1], and no position [box.offset + pos] wraps. *)
Theorem placeStripedBox_every_cell (editor : Editor') (box : Box)
    (stripeAxis : Z) (block1 block2 : Block) (replace : Replace) :
  let coord (v : ivec3) :=
    if stripeAxis =? 0 then vx v
    else if stripeAxis =? 1 then vy v else vz v in
  let chosen q :=
    if Z.even (coord q - coord (offset box)) then block1 else block2 in
  let request q := PlaceBlock (Err := Err) (At q) (chosen q) replace in
  stripeAxis = 0 \/ stripeAxis = 1 \/ stripeAxis = 2 ->
  Box_int32 box ->
  (forall ed q, In q (Box_points box) -> Editor_raises ed (request q) = None) ->
  placeStripedBox editor box stripeAxis block1 block2 replace
  = (mk_Editor (transform editor)
               (journal editor ++ map request (Box_points box)), None)
  /\ (forall q, coord q = coord (offset box) -> chosen q = block1)
  /\ (forall pos, In pos (Box_points (Box_of_size (size box))) ->
        ivec3_wrap (ivec3_add (offset box) pos) = ivec3_add (offset box) pos).
Proof.
  intros coord chosen request Haxis Hrange Hquiet. split; [|split].
  - now apply placeStripedBox_quiet.
  - intros q Hq. unfold chosen. now rewrite Hq, Z.sub_diag.
  - intros pos Hpos. apply ivec3_wrap_int32.
    now apply local_position_int32.
Qed.

(** X10.  The pattern functions on two corners do not depend on the order
    of the corners, also when an exception escapes. *)
Theorem pattern_cuboids_any_order (editor : Editor') (first last : ivec3)
    (stripeAxis : Z) (block1 block2 : Block) (replace : Replace) :
  placeCheckeredCuboid editor last first block1 block2 replace
  = placeCheckeredCuboid editor first last block1 block2 replace
  /\ placeStripedCuboid editor last first stripeAxis block1 block2 replace
     = placeStripedCuboid editor first last stripeAxis block1 block2 replace.
Proof.
  unfold placeCheckeredCuboid, placeStripedCuboid.
  now rewrite (Box_between_comm last first).
Qed.

(** X11.  [placeCheckeredCuboid] anchors the pattern at the corner of the
    region with the smallest coordinates, whichever corners are given:
    when the editor raises on none of the calls, it makes one
    [placeBlock] call per point [q] of the closed box between the
    corners, asking for [block1] when the components of [q] minus that
    corner sum to an even number and for [block2] otherwise. *)
Theorem placeCheckeredCuboid_anchored_at_least_corner (editor : Editor')
    (first last : ivec3) (block1 block2 : Block) (replace : Replace) :
  let least := vmin first last in
  let region := Box_points (Box_between first last) in
  let chosen q :=
    if Z.even (ivec3_sum (ivec3_sub q least)) then block1 else block2 in
  let request q := PlaceBlock (Err := Err) (At q) (chosen q) replace in
  (forall ed q, In q region -> Editor_raises ed (request q) = None) ->
  placeCheckeredCuboid editor first last block1 block2 replace
  = (mk_Editor (transform editor) (journal editor ++ map request region), None)
  /\ (forall q, In q region <->
        Z.min (vx first) (vx last) <= vx q <= Z.max (vx first) (vx last)
        /\ Z.min (vy first) (vy last) <= vy q <= Z.max (vy first) (vy last)
        /\ Z.min (vz first) (vz last) <= vz q <= Z.max (vz first) (vz last))
  /\ (In least region /\ chosen least = block1).
Proof.
  intros least region chosen request Hquiet. split; [|split].
  - unfold placeCheckeredCuboid.
    apply (placeCheckeredBox_quiet editor (Box_between first last)).
    exact Hquiet.
  - intros q. apply In_Box_between.
  - split.
    + apply In_Box_between. unfold least, vmin. simpl. lia.
    + unfold chosen, ivec3_sum, ivec3_sub. simpl.
      now rewrite !Z.sub_diag.
Qed.

(** X16.  [placeStripedCuboid] counts the stripes from the face of the
    region with the smallest coordinate along [stripeAxis], whichever
    corners are given: with [stripeAxis] 0, 1 or 2 and an editor that
    raises on none of the calls, it makes one [placeBlock] call per point
    [q] of the closed box between the corners, asking for [block1] when
    [q] is an even number of steps from that face and for [block2]
    otherwise. *)
Theorem placeStripedCuboid_anchored_at_least_face (editor : Editor')
    (first last : ivec3) (stripeAxis : Z) (block1 block2 : Block)
    (replace : Replace) :
  let coord (v : ivec3) :=
    if stripeAxis =? 0 then vx v
    else if stripeAxis =? 1 then vy v else vz v in
  let region := Box_points (Box_between first last) in
  let chosen q :=
    if Z.even (coord q - Z.min (coord first) (coord last))
    then block1 else block2 in
  let request q := PlaceBlock (Err := Err) (At q) (chosen q) replace in
  stripeAxis = 0 \/ stripeAxis = 1 \/ stripeAxis = 2 ->
  (forall ed q, In q region -> Editor_raises ed (request q) = None) ->
  placeStripedCuboid editor first last stripeAxis block1 block2 replace
  = (mk_Editor (transform editor) (journal editor ++ map request region), None).
Proof.
  intros coord region chosen request Haxis Hquiet.
  unfold placeStripedCuboid.
  destruct Haxis as [-> | [-> | ->]].
  - apply (placeStripedBox_quiet editor (Box_between first last) 0 block1
             block2 replace (or_introl eq_refl)).
    exact Hquiet.
  - apply (placeStripedBox_quiet editor (Box_between first last) 1 block1
             block2 replace (or_intror (or_introl eq_refl))).
    exact Hquiet.
  - apply (placeStripedBox_quiet editor (Box_between first last) 2 block1
             block2 replace (or_intror (or_intror eq_refl))).
    exact Hquiet.
Qed.

(** X12.  A box with a size component that is zero or negative has no
    local position: [placeCheckeredBox] and [placeStripedBox] return
    normally without a call, and [placeStripedBox] does so whatever
    [stripeAxis] is, since the index is only read inside the loop. *)
Theorem pattern_boxes_without_cells (editor : Editor') (box : Box)
    (stripeAxis : Z) (block1 block2 : Block) (replace : Replace) :
  vx (size box) <= 0 \/ vy (size box) <= 0 \/ vz (size box) <= 0 ->
  placeCheckeredBox editor box block1 block2 replace = (editor, None)
  /\ placeStripedBox editor box stripeAxis block1 block2 replace
     = (editor, None).
Proof.
  intros Hsize. unfold placeCheckeredBox, placeStripedBox.
  rewrite !for_gen_inner, Box_points_empty by exact Hsize. auto.
Qed.

(** X13.  On a box of positive size, a [stripeAxis] on which indexing the
    first local position raises makes [placeStripedBox] raise that
    exception before any call reaches the editor. *)
Theorem placeStripedBox_invalid_axis_raises (editor : Editor') (box : Box)
    (stripeAxis : Z) (block1 block2 : Block) (replace : Replace) (e : Err) :
  0 < vx (size box) -> 0 < vy (size box) -> 0 < vz (size box) ->
  ivec3_getitem ivec3_zero stripeAxis = inl e ->
  placeStripedBox editor box stripeAxis block1 block2 replace
  = (editor, Some e).
Proof.
  intros Hx Hy Hz Hindex. unfold placeStripedBox. rewrite for_gen_inner.
  destruct (Box_points_head (Box_of_size (size box))) as (rest & Hpoints);
    try assumption.
  rewrite Hpoints. simpl. unfold stripedBlock.
  change (Box_begin (Box_of_size (size box))) with ivec3_zero.
  now rewrite Hindex.
Qed.

(** X14.  An exception of the editor stops [placeCheckeredBox] where it
    is raised: the calls for the local positions before it have been
    made and stay in the journal, the call that raised is the last one,
    the positions after it are never asked for, and the exception
    escapes unchanged. *)
Theorem placeCheckeredBox_stops_at_first_exception (editor : Editor')
    (box : Box) (block1 block2 : Block) (replace : Replace)
    (pre post : list ivec3) (pos : ivec3) (e : Err) :
  let request p :=
    PlaceBlock (Err := Err) (At (ivec3_add (offset box) p))
               (checkeredBlock p block1 block2) replace in
  let before :=
    mk_Editor (transform editor) (journal editor ++ map request pre) in
  Box_points (Box_of_size (size box)) = pre ++ pos :: post ->
  (forall ed p, In p pre -> Editor_raises ed (request p) = None) ->
  Editor_raises before (request pos) = Some e ->
  placeCheckeredBox editor box block1 block2 replace
  = (mk_Editor (transform editor)
               (journal editor ++ map request pre ++ [request pos]),
     Some e).
Proof.
  intros request before Hpoints Hquiet Hraise.
  unfold placeCheckeredBox. rewrite for_gen_inner, Hpoints.
  apply (for_list_stops _ pre post pos editor before).
  - apply (for_list_quiet request pre Hquiet).
  - unfold Editor_placeBlock, Editor_receive. fold (request pos).
    rewrite Hraise. unfold before. simpl. now rewrite <- app_assoc.
Qed.

(* ------------------------------------------------------------------ *)
(** ** Every call of every function *)

Lemma pattern_calls_given (given : Replace) (xs : list ivec3)
    (body : Editor' -> ivec3 -> Outcome) :
  (forall ed pos, body ed pos = (ed, snd (body ed pos))
                  \/ exists p b, body ed pos
                                 = Editor_placeBlock ed (At p) b given) ->
  forall editor, exists cs,
    journal (fst (for_list xs body editor)) = journal editor ++ cs
    /\ Forall (fun c => Call_replace c = given /\ Call_global c = false) cs.
Proof.
  intros Hbody. apply for_list_calls. intros ed pos.
  destruct (Hbody ed pos) as [Hskip | (p & b & Hcall)].
  - exists []. rewrite Hskip. simpl. rewrite app_nil_r. auto.
  - rewrite Hcall. eexists. split; [reflexivity|].
    constructor; [|constructor]. auto.
Qed.

(** X15.  Every placement call that any function of the layer makes
    carries the [replace] argument the function was given, and a function
    uses one operation of the editor only: [placeBlockGlobal] for the
    cuboid, box, rectangle, line and fitting-cylinder functions,
    [placeBlock] for the pattern, line-sequence and cylinder functions. *)
Theorem every_call_keeps_filter_and_operation (i : Invocation)
    (editor : Editor') :
  exists cs,
    journal (fst (invoke i editor)) = journal editor ++ cs
    /\ Forall (fun c => Call_replace c = Invocation_replace i
                        /\ Call_global c = Invocation_global i) cs.
Proof.
  assert (Hone : forall (c : Call') (r : Replace) (g : bool),
            Call_replace c = r -> Call_global c = g ->
            exists cs, journal editor ++ [c] = journal editor ++ cs
                       /\ Forall (fun c => Call_replace c = r
                                           /\ Call_global c = g) cs).
  { intros c r g Hr Hg. exists [c]. split; [reflexivity|].
    constructor; [|constructor]. auto. }
  assert (Hnone : forall (r : Replace) (g : bool),
            exists cs, journal editor = journal editor ++ cs
                       /\ Forall (fun c : Call' =>
                                    Call_replace c = r /\ Call_global c = g)
                                 cs).
  { intros r g. exists []. rewrite app_nil_r. auto. }
  destruct i; simpl;
    unfold placeRect, placeRectOutline, placeBox, placeBoxHollow,
      placeBoxWireframe, placeCheckeredCuboid, placeStripedCuboid;
    try (apply Hone; reflexivity);
    try match goal with
        | |- context [size_has_zero ?b] =>
            destruct (size_has_zero b);
            [apply Hnone | apply Hone; reflexivity]
        end;
    unfold placeCheckeredBox, placeStripedBox; rewrite for_gen_inner;
    apply pattern_calls_given; intros ed pos.
  - right. eexists _, _. reflexivity.
  - right. eexists _, _. reflexivity.
  - destruct (stripedBlock pos stripeAxis block1 block2);
      [left; reflexivity | right; eexists _, _; reflexivity].
  - destruct (stripedBlock pos stripeAxis block1 block2);
      [left; reflexivity | right; eexists _, _; reflexivity].
Qed.

End Coverage.

(* ------------------------------------------------------------------ *)
(** ** The layer on concrete inputs *)

Section Samples.

Import Sample.

(** The example of the specification: the cuboid from (0,0,0) to (1,0,1)
    is four points. *)
Example placeCuboid_four_points :
  placeCuboid at_origin (mk_ivec3 0 0 0) (mk_ivec3 1 0 1) stone None
  = (mk_Editor identity
       [PlaceBlockGlobal
          (Each (PointGen_of [mk_ivec3 0 0 0; mk_ivec3 0 0 1;
                              mk_ivec3 1 0 0; mk_ivec3 1 0 1]))
          stone None],
     None).
Proof. reflexivity. Qed.

(** Under a transform the cuboid is placed between the transformed
    corners, with the block turned. *)
Example placeCuboid_turned :
  placeCuboid turned_editor (mk_ivec3 0 0 0) (mk_ivec3 1 0 2) stairs None
  = (mk_Editor turned
       [PlaceBlockGlobal
          (Each (Box_inner (Box_between (mk_ivec3 10 0 0) (mk_ivec3 8 0 1))))
          (mk_SBlock "oak_stairs" 2) None],
     None).
Proof. reflexivity. Qed.

(** A box of size (-1, 1, 1) at (5, 5, 5) reaches the editor as the three
    points from x = 3 to x = 5. *)
Example placeBox_inverted :
  placeBox at_origin inverted_box stone None
  = (mk_Editor identity
       [PlaceBlockGlobal
          (Each (PointGen_of [mk_ivec3 3 5 5; mk_ivec3 4 5 5; mk_ivec3 5 5 5]))
          stone None],
     None).
Proof. reflexivity. Qed.

(** A cylinder along an axis that does not exist: the call is made and the
    exception of the generator escapes. *)
Example placeCylinder_invalid_axis :
  placeCylinder at_origin (mk_ivec3 0 0 0) (DiameterInt 3) 2 stone 7 false
                false None
  = (mk_Editor identity
       [PlaceBlock (Each (mk_PointGen [] (Some "invalid axis"%string)))
                   stone None],
     Some "invalid axis"%string).
Proof. reflexivity. Qed.

(** Stripes along an axis that does not exist: the indexing raises at the
    first position, before any call. *)
Example placeStripedBox_invalid_axis :
  placeStripedBox turned_editor small_box 3 stone glass None
  = (turned_editor, Some "index out of range"%string).
Proof. reflexivity. Qed.

(** The same on a box without points: the loop body never runs. *)
Example placeStripedBox_invalid_axis_empty :
  placeStripedBox turned_editor flat_box 3 stone glass None
  = (turned_editor, None).
Proof. reflexivity. Qed.

Lemma placeBox_zero_size_is_noop_witness :
  (vx (size flat_box) = 0 \/ vy (size flat_box) = 0 \/ vz (size flat_box) = 0)
  /\ placeBox turned_editor flat_box stone None = (turned_editor, None)
  /\ placeBoxHollow turned_editor flat_box stone None = (turned_editor, None)
  /\ placeBoxWireframe turned_editor flat_box stone None
     = (turned_editor, None).
Proof.
  assert (Hzero : vx (size flat_box) = 0 \/ vy (size flat_box) = 0
                  \/ vz (size flat_box) = 0) by (right; left; reflexivity).
  split; [exact Hzero|].
  destruct (placeBox_zero_size_is_noop turned_editor flat_box stone None Hzero)
    as ((Hbox & _) & (Hhollow & _) & (Hwire & _)).
  auto.
Defined.

Lemma placeBox_negative_size_delegates_witness :
  (vx (size inverted_box) < 0 \/ vy (size inverted_box) < 0
   \/ vz (size inverted_box) < 0)
  /\ placeBox at_origin inverted_box stone None
     = placeCuboid at_origin (mk_ivec3 5 5 5) (mk_ivec3 3 5 5) stone None.
Proof.
  assert (Hneg : vx (size inverted_box) < 0 \/ vy (size inverted_box) < 0
                 \/ vz (size inverted_box) < 0) by (left; reflexivity).
  split; [exact Hneg|].
  refine (proj1 (proj1 (placeBox_negative_size_delegates
                          at_origin inverted_box stone None _ _ _ Hneg)));
    simpl; lia.
Defined.

Lemma placeStripedBox_axis_parity_witness :
  (2 = 0 \/ 2 = 1 \/ 2 = 2)
  /\ exists n : nat,
       journal (fst (placeStripedBox turned_editor small_box 2 stone glass
                                     None))
       = map (fun pos =>
                PlaceBlock (At (ivec3_add (mk_ivec3 5 5 5) pos))
                           (if Z.even (vz pos) then stone else glass) None)
             (firstn n (Box_points (Box_of_size (mk_ivec3 2 1 3))))
       /\ n = 6%nat.
Proof.
  assert (Haxis : 2 = 0 \/ 2 = 1 \/ 2 = 2) by (right; right; reflexivity).
  split; [exact Haxis|].
  destruct (placeStripedBox_axis_parity turned_editor small_box 2 stone glass
              None Haxis) as ((n & Hjournal & Hdone) & _).
  exists n. split; [exact Hjournal|exact Hdone].
Defined.


Lemma placeLineSequence_three_points_witness :
  let P0 := mk_ivec3 0 0 0 in
  let P1 := mk_ivec3 3 1 0 in
  let P2 := mk_ivec3 0 2 2 in
  (raises (line P0 P1 1) = None /\ raises (line P1 P2 1) = None
   /\ raises (line P2 P0 1) = None)
  /\ exists g : PointGen string,
       journal (fst (placeLineSequence turned_editor [P0; P1; P2] stairs true
                                       None))
       = [PlaceBlock (Each g) stairs None]
       /\ forall p, In p (yields g) <->
                    In p (yields (line P0 P1 1)) \/ In p (yields (line P1 P2 1))
                    \/ In p (yields (line P2 P0 1)).
Proof.
  intros P0 P1 P2.
  assert (H01 : raises (line P0 P1 1) = None) by reflexivity.
  assert (H12 : raises (line P1 P2 1) = None) by reflexivity.
  assert (H20 : raises (line P2 P0 1) = None) by reflexivity.
  split; [auto|].
  destruct (placeLineSequence_three_points turned_editor P0 P1 P2 stairs None
              H01 H12 H20) as ((g & _ & Hjournal & _ & Hpoints) & _).
  exists g. split; [exact Hjournal|exact Hpoints].
Defined.

(** A transform that raises makes [placeCuboid] raise before any call
    reaches the editor; [placeBox] on a box without thickness returns
    before the transform is used; [placeCheckeredBox] never uses it. *)
Example placeCuboid_transform_raises :
  @WithExceptions.invoke collaborators Quarter.raising
    (@CallPlaceCuboid collaborators (mk_ivec3 0 0 0) (mk_ivec3 1 1 1) stone
                      None)
    Quarter.skewed_editor
  = (Quarter.skewed_editor, Some "invalid rotation"%string).
Proof. reflexivity. Qed.

Example placeBox_guard_before_transform :
  @WithExceptions.invoke collaborators Quarter.raising
    (@CallPlaceBox collaborators flat_box stone None) Quarter.skewed_editor
  = (Quarter.skewed_editor, None).
Proof. reflexivity. Qed.

Example placeCheckeredBox_without_transform :
  map Call_block
    (journal
       (fst (@WithExceptions.invoke collaborators Quarter.raising
               (@CallPlaceCheckeredBox collaborators thin_box stone glass None)
               Quarter.skewed_editor)))
  = [stone; glass].
Proof. reflexivity. Qed.

Lemma exceptions_come_from_collaborators_witness :
  snd (@WithExceptions.invoke collaborators Quarter.raising
         (@CallPlaceCuboid collaborators (mk_ivec3 0 0 0) (mk_ivec3 1 1 1)
                           stone None)
         Quarter.skewed_editor)
  = Some "invalid rotation"%string
  /\ @WithExceptions.raised_by collaborators Quarter.raising
       (@CallPlaceCuboid collaborators (mk_ivec3 0 0 0) (mk_ivec3 1 1 1)
                         stone None)
       Quarter.skewed_editor "invalid rotation"%string
       (@WithExceptions.invoke collaborators Quarter.raising
          (@CallPlaceCuboid collaborators (mk_ivec3 0 0 0) (mk_ivec3 1 1 1)
                            stone None)
          Quarter.skewed_editor).
Proof.
  split; [reflexivity|].
  apply (proj1 (@exceptions_come_from_collaborators collaborators
                  Quarter.raising
                  (@CallPlaceCuboid collaborators (mk_ivec3 0 0 0)
                                    (mk_ivec3 1 1 1) stone None)
                  Quarter.skewed_editor)).
  reflexivity.
Defined.

(** C5 as stated fails: were the zero-size guard the only conditional of
    the layer, one call of a function without the guard could not give
    different positions different blocks.  [placeCheckeredBox] on a box of
    size (1, 1, 2) asks for [block1] at the local position (0, 0, 0) and
    for [block2] at (0, 0, 1). *)
Lemma pattern_choice_is_conditional :
  let out := placeCheckeredBox at_origin thin_box stone glass None in
  map Call_block (journal (fst out)) = [stone; glass]
  /\ ~ (forall c c', In c (journal (fst out)) -> In c' (journal (fst out)) ->
                     Call_block c = Call_block c').
Proof.
  intros out. split; [reflexivity|].
  intros Hsame.
  specialize (Hsame (PlaceBlock (At (mk_ivec3 5 5 5)) stone None)
                    (PlaceBlock (At (mk_ivec3 5 5 6)) glass None)).
  assert (Hneq : stone <> glass) by discriminate.
  apply Hneq. apply Hsame; simpl; auto.
Qed.

End Samples.

(* ------------------------------------------------------------------ *)
(** ** Boxes, rectangles and patterns on concrete inputs *)

Section CoverageSamples.

Import Sample.

Lemma placeBox_places_the_box_witness :
  (0 < vx (size small_box) /\ 0 < vy (size small_box)
   /\ 0 < vz (size small_box))
  /\ Box_int32 small_box
  /\ placeBox at_origin small_box stone None
     = Editor_placeBlockGlobal at_origin (Each (Box_inner small_box)) stone
                               None.
Proof.
  assert (Hx : 0 < vx (size small_box)) by reflexivity.
  assert (Hy : 0 < vy (size small_box)) by reflexivity.
  assert (Hz : 0 < vz (size small_box)) by reflexivity.
  assert (Hrange : Box_int32 small_box)
    by (unfold Box_int32, ivec3_int32, int32; simpl; lia).
  split; [auto|]. split; [exact Hrange|].
  exact (proj1 (placeBox_places_the_box at_origin small_box stone None
                  Hx Hy Hz Hrange eq_refl eq_refl)).
Defined.

Lemma placeBox_span_per_axis_witness :
  vx (size inverted_box) <> 0
  /\ Box_int32 inverted_box
  /\ Box_int32 (Box_between (Box_begin inverted_box)
                            (ivec3_sub_int (Box_end inverted_box) 1))
  /\ exists g : PointGen string,
       placeBox at_origin inverted_box stone None
       = Editor_placeBlockGlobal at_origin (Each g) stone None
       /\ forall p, In p (yields g) <->
                    3 <= vx p <= 5 /\ 5 <= vy p < 5 + 1 /\ 5 <= vz p < 5 + 1.
Proof.
  assert (Hx : vx (size inverted_box) <> 0) by discriminate.
  assert (Hy : vy (size inverted_box) <> 0) by discriminate.
  assert (Hz : vz (size inverted_box) <> 0) by discriminate.
  assert (Hbox : Box_int32 inverted_box)
    by (unfold Box_int32, ivec3_int32, int32; simpl; lia).
  assert (Hlast : ivec3_int32 (ivec3_sub_int (Box_end inverted_box) 1))
    by (unfold ivec3_int32, int32; simpl; lia).
  assert (Hregion : Box_int32 (Box_between (Box_begin inverted_box)
                                 (ivec3_sub_int (Box_end inverted_box) 1)))
    by (unfold Box_int32, ivec3_int32, int32; simpl; lia).
  split; [exact Hx|]. split; [exact Hbox|]. split; [exact Hregion|].
  destruct (placeBox_span_per_axis at_origin inverted_box stone None
              Hx Hy Hz Hbox Hlast Hregion eq_refl eq_refl)
    as (g & Hcall & _ & Hpoints & _).
  exists g. split; [exact Hcall|exact Hpoints].
Defined.

Lemma placeRect_cells_witness :
  let rect := mk_Rect (mk_ivec2 2 3) (mk_ivec2 4 2) in
  (0 < ux (rect_size rect) /\ 0 < uy (rect_size rect))
  /\ Box_int32 (Rect_toBox rect 64 1)
  /\ exists area : PointGen string,
       placeRect at_origin rect 64 stone None
       = Editor_placeBlockGlobal at_origin (Each area) stone None
       /\ (forall p, In p (yields area) <->
             vy p = 64 /\ 2 <= vx p < 2 + 4 /\ 3 <= vz p < 3 + 2).
Proof.
  intros rect.
  assert (Hx : 0 < ux (rect_size rect)) by reflexivity.
  assert (Hz : 0 < uy (rect_size rect)) by reflexivity.
  assert (Hrange : Box_int32 (Rect_toBox rect 64 1))
    by (unfold Box_int32, ivec3_int32, int32; simpl; lia).
  split; [auto|]. split; [exact Hrange|].
  destruct (placeRect_cells at_origin rect 64 stone None Hx Hz Hrange
              eq_refl eq_refl)
    as (area & Harea & _ & Hin & _).
  exists area. auto.
Defined.

Lemma placeCheckeredBox_every_cell_witness :
  Box_int32 thin_box
  /\ (forall (ed : Editor') (q : ivec3) (b : Block),
        Editor_raises ed (PlaceBlock (At q) b None) = None)
  /\ placeCheckeredBox at_origin thin_box stone glass None
     = (mk_Editor identity
          [PlaceBlock (At (mk_ivec3 5 5 5)) stone None;
           PlaceBlock (At (mk_ivec3 5 5 6)) glass None],
        None).
Proof.
  assert (Hquiet : forall (ed : Editor') (q : ivec3) (b : Block),
            Editor_raises ed (PlaceBlock (At q) b None) = None)
    by reflexivity.
  assert (Hrange : Box_int32 thin_box)
    by (unfold Box_int32, ivec3_int32, int32; simpl; lia).
  split; [exact Hrange|]. split; [exact Hquiet|].
  exact (proj1 (placeCheckeredBox_every_cell at_origin thin_box stone glass
                  None Hrange (fun ed q _ => Hquiet ed q _))).
Defined.

Lemma placeStripedBox_every_cell_witness :
  (2 = 0 \/ 2 = 1 \/ 2 = 2)
  /\ Box_int32 thin_box
  /\ placeStripedBox at_origin thin_box 2 stone glass None
     = (mk_Editor identity
          [PlaceBlock (At (mk_ivec3 5 5 5)) stone None;
           PlaceBlock (At (mk_ivec3 5 5 6)) glass None],
        None).
Proof.
  assert (Haxis : 2 = 0 \/ 2 = 1 \/ 2 = 2) by (right; right; reflexivity).
  assert (Hrange : Box_int32 thin_box)
    by (unfold Box_int32, ivec3_int32, int32; simpl; lia).
  split; [exact Haxis|]. split; [exact Hrange|].
  exact (proj1 (placeStripedBox_every_cell at_origin thin_box 2 stone glass
                  None Haxis Hrange (fun ed q _ => eq_refl))).
Defined.

Lemma placeCheckeredCuboid_anchored_at_least_corner_witness :
  (forall (ed : Editor') (q : ivec3) (b : Block),
     Editor_raises ed (PlaceBlock (At q) b None) = None)
  /\ placeCheckeredCuboid at_origin (mk_ivec3 1 0 1) (mk_ivec3 0 0 0) stone
                          glass None
     = (mk_Editor identity
          [PlaceBlock (At (mk_ivec3 0 0 0)) stone None;
           PlaceBlock (At (mk_ivec3 0 0 1)) glass None;
           PlaceBlock (At (mk_ivec3 1 0 0)) glass None;
           PlaceBlock (At (mk_ivec3 1 0 1)) stone None],
        None).
Proof.
  assert (Hquiet : forall (ed : Editor') (q : ivec3) (b : Block),
            Editor_raises ed (PlaceBlock (At q) b None) = None)
    by reflexivity.
  split; [exact Hquiet|].
  exact (proj1 (placeCheckeredCuboid_anchored_at_least_corner at_origin
                  (mk_ivec3 1 0 1) (mk_ivec3 0 0 0) stone glass None
                  (fun ed q _ => Hquiet ed q _))).
Defined.

Lemma pattern_boxes_without_cells_witness :
  (vx (size inverted_box) <= 0 \/ vy (size inverted_box) <= 0
   \/ vz (size inverted_box) <= 0)
  /\ placeCheckeredBox turned_editor inverted_box stone glass None
     = (turned_editor, None)
  /\ placeStripedBox turned_editor inverted_box 7 stone glass None
     = (turned_editor, None).
Proof.
  assert (Hsize : vx (size inverted_box) <= 0 \/ vy (size inverted_box) <= 0
                  \/ vz (size inverted_box) <= 0) by (left; discriminate).
  split; [exact Hsize|].
  exact (pattern_boxes_without_cells turned_editor inverted_box 7 stone glass
           None Hsize).
Defined.

Lemma placeStripedBox_invalid_axis_raises_witness :
  ivec3_getitem ivec3_zero 3 = inl "index out of range"%string
  /\ placeStripedBox turned_editor small_box 3 stone glass None
     = (turned_editor, Some "index out of range"%string).
Proof.
  assert (Hindex : ivec3_getitem ivec3_zero 3
                   = inl "index out of range"%string) by reflexivity.
  split; [exact Hindex|].
  refine (placeStripedBox_invalid_axis_raises turned_editor small_box 3 stone
            glass None _ _ _ _ Hindex); reflexivity.
Defined.

Lemma placeStripedCuboid_anchored_at_least_face_witness :
  (0 = 0 \/ 0 = 1 \/ 0 = 2)
  /\ placeStripedCuboid at_origin (mk_ivec3 1 0 1) (mk_ivec3 0 0 0) 0 stone
                        glass None
     = (mk_Editor identity
          [PlaceBlock (At (mk_ivec3 0 0 0)) stone None;
           PlaceBlock (At (mk_ivec3 0 0 1)) stone None;
           PlaceBlock (At (mk_ivec3 1 0 0)) glass None;
           PlaceBlock (At (mk_ivec3 1 0 1)) glass None],
        None).
Proof.
  assert (Haxis : 0 = 0 \/ 0 = 1 \/ 0 = 2) by (left; reflexivity).
  split; [exact Haxis|].
  exact (placeStripedCuboid_anchored_at_least_face at_origin (mk_ivec3 1 0 1)
           (mk_ivec3 0 0 0) 0 stone glass None Haxis (fun ed q _ => eq_refl)).
Defined.

End CoverageSamples.

Lemma placeCheckeredBox_stops_at_first_exception_witness :
  let editor : @Editor' BuildArea.collaborators :=
    mk_Editor Sample.identity [] in
  let cell (y : Z) (b : Sample.SBlock) :=
    PlaceBlock (Err := string) (At (mk_ivec3 5 y 5)) b None in
  @Editor_raises BuildArea.collaborators
    (mk_Editor Sample.identity [cell 254 Sample.stone; cell 255 Sample.glass])
    (cell 256 Sample.stone)
  = Some "above the build height"%string
  /\ @placeCheckeredBox BuildArea.collaborators editor BuildArea.tall_box
       Sample.stone Sample.glass None
     = (mk_Editor Sample.identity
          [cell 254 Sample.stone; cell 255 Sample.glass; cell 256 Sample.stone],
        Some "above the build height"%string).
Proof.
  intros editor cell. split; [reflexivity|].
  refine (@placeCheckeredBox_stops_at_first_exception BuildArea.collaborators
            editor BuildArea.tall_box Sample.stone Sample.glass None
            [mk_ivec3 0 0 0; mk_ivec3 0 1 0] [mk_ivec3 0 3 0] (mk_ivec3 0 2 0)
            "above the build height"%string eq_refl _ eq_refl).
  intros ed p [<- | [<- | []]]; reflexivity.
Defined.
